(** * LightScope runner: secure self-update and supervision

    A shallow embedding of the Debian runner
    (debian_package/opt/lightscope/bin/lightscope-runner.py), of the Windows
    runner (lightscope-runner-windows.py) and of the publisher's signing tool
    (sign-and-upload.py), with the properties of the update installer, the
    signature check and the supervision loop stated over it.

    Python values are modelled as the code uses them: module globals and
    [sys.modules] as finite maps keyed by name, files as byte lists in a finite
    map keyed by path, exceptions as an outcome type, [threading.Event] objects
    as booleans, and the other threads and the signal handler as a schedule of
    asynchronous actions consumed by every blocking call of the main thread. *)

From Stdlib Require Import ZArith Lia.
From Stdlib Require Strings.Byte.
From stdpp Require Import base option list gmap strings pretty.

Open Scope string_scope.
Open Scope list_scope.

(** ** Python outcomes *)

Module Py.

(** The exception classes the runners meet.  [SystemExit] and
    [KeyboardInterrupt] derive from [BaseException] only, so that
    [except Exception] lets them through. *)
Inductive exn : Type :=
| ImportError
| NameError
| UnboundLocalError
| InvalidSignature
| OSError
| FileExistsError
| URLError
| JSONDecodeError
| ValueError
| RuntimeError
| KeyboardInterrupt
| SystemExit (code : Z).

Definition is_Exception (e : exn) : bool :=
  match e with
  | KeyboardInterrupt | SystemExit _ => false
  | _ => true
  end.

Definition is_ImportError (e : exn) : bool :=
  match e with ImportError => true | _ => false end.

Definition is_InvalidSignature (e : exn) : bool :=
  match e with InvalidSignature => true | _ => false end.

Definition is_URLError (e : exn) : bool :=
  match e with URLError => true | _ => false end.

Definition is_JSONDecodeError (e : exn) : bool :=
  match e with JSONDecodeError => true | _ => false end.

Definition is_KeyboardInterrupt (e : exn) : bool :=
  match e with KeyboardInterrupt => true | _ => false end.

(** What evaluating a Python expression or block gives. *)
Inductive outcome (A : Type) : Type :=
| Return (a : A)
| Raise (e : exn).
Arguments Return {A} a.
Arguments Raise {A} e.

Definition obind {A B} (o : outcome A) (k : A -> outcome B) : outcome B :=
  match o with
  | Return a => k a
  | Raise e => Raise e
  end.

(** [try: body / except cls: handler]: the first matching clause handles. *)
Fixpoint try_except {A} (body : outcome A)
    (clauses : list ((exn -> bool) * (exn -> outcome A))) : outcome A :=
  match body with
  | Return a => Return a
  | Raise e =>
      match clauses with
      | [] => Raise e
      | (cls, handler) :: rest =>
          if cls e then handler e else try_except (Raise e) rest
      end
  end.

End Py.
Import Py.

#[export] Instance outcome_ret : MRet outcome := @Return.
#[export] Instance outcome_bind : MBind outcome := fun A B k o => obind o k.

Abbreviation bytes := (list Byte.byte).

#[export] Instance byte_eq_decision : EqDecision Byte.byte :=
  Stdlib.Strings.Byte.byte_eq_dec.

(** ** Module load of the Debian runner (lines 7-61) *)

Module DebianModule.

(** Objects bound to module-level names. *)
Inductive pyval : Type :=
| VBool (b : bool)
| VStr (s : string)
| VPath (s : string)
| VModule (name : string)
| VLogger (name : string)
| VEvent (flag : bool)
| VNone.

(** What the host offers while the module body runs. *)
Record host : Type := Host {
  systemd_importable : bool;   (* [import systemd.daemon] succeeds *)
  log_file_openable : bool     (* [logging.FileHandler] can open its file *)
}.

(** A module-level statement: runs on the module's global namespace and
    leaves it as it was when it raises. *)
Definition stmt : Type := gmap string pyval -> outcome unit * gmap string pyval.

Definition assign (x : string) (v : pyval) : stmt :=
  fun g => (Return tt, <[x := v]> g).

Definition raise_stmt (e : exn) : stmt := fun g => (Raise e, g).

(** Evaluating a global name: [NameError] when nothing is bound to it (none of
    the names looked up here is a builtin). *)
Definition use_name (x : string) : stmt :=
  fun g => match g !! x with
           | Some _ => (Return tt, g)
           | None => (Raise NameError, g)
           end.

Definition seq (s1 s2 : stmt) : stmt :=
  fun g => match s1 g with
           | (Return _, g1) => s2 g1
           | (Raise e, g1) => (Raise e, g1)
           end.

Definition try_stmt (body : stmt) (cls : exn -> bool) (handler : stmt) : stmt :=
  fun g => match body g with
           | (Return _, g1) => (Return tt, g1)
           | (Raise e, g1) => if cls e then handler g1 else (Raise e, g1)
           end.

Fixpoint block (ss : list stmt) : stmt :=
  match ss with
  | [] => fun g => (Return tt, g)
  | s :: rest => seq s (block rest)
  end.

(** Lines 7-22. *)
Definition imports : stmt :=
  block (map (fun m => assign m (VModule m))
    ["os"; "sys"; "time"; "json"; "hashlib"; "logging"; "tempfile";
     "subprocess"; "urllib"; "threading"; "signal"; "Path"; "hashes";
     "serialization"; "rsa"; "padding"; "InvalidSignature"]).

(** Line 27. *)
Definition import_systemd (h : host) : stmt :=
  if systemd_importable h then assign "systemd" (VModule "systemd")
  else raise_stmt ImportError.

(** Lines 26-31: the handler calls [logger.warning] at line 31. *)
Definition systemd_block (h : host) : stmt :=
  try_stmt
    (seq (import_systemd h) (assign "SYSTEMD_AVAILABLE" (VBool true)))
    is_ImportError
    (seq (assign "SYSTEMD_AVAILABLE" (VBool false)) (use_name "logger")).

(** Lines 34-45. *)
Definition configuration : stmt :=
  block [ assign "LIGHTSCOPE_HOME" (VPath "/opt/lightscope");
          assign "CONFIG_DIR" (VPath "/opt/lightscope/config");
          assign "UPDATES_DIR" (VPath "/opt/lightscope/updates");
          assign "LOGS_DIR" (VPath "/opt/lightscope/logs");
          assign "BIN_DIR" (VPath "/opt/lightscope/bin");
          assign "runner_version" (VStr "1.0.0");
          assign "UPDATE_CHECK_URL" (VStr "https://thelightscope.com/latest/version");
          assign "DOWNLOAD_URL_BASE" (VStr "https://thelightscope.com/latest") ].

(** Lines 48-56: the logger is bound at line 56. *)
Definition setup_logging (h : host) : stmt :=
  seq (fun g => if log_file_openable h then (Return tt, g) else (Raise OSError, g))
      (assign "logger" (VLogger "lightscope-runner")).

(** Lines 59-61. *)
Definition thread_globals : stmt :=
  block [ assign "shutdown_event" (VEvent false);
          assign "update_available_event" (VEvent false);
          assign "lightscope_process" VNone ].

Definition module_body (h : host) : stmt :=
  block [ imports; systemd_block h; configuration; setup_logging h; thread_globals ].

(** Running the script: [main()] at line 488 is reached only when the module
    body ran to its end. *)
Inductive script_start : Type :=
| CrashedAtLoad (e : exn)
| EntersMain (g : gmap string pyval).

Definition run_script (h : host) : script_start :=
  match module_body h ∅ with
  | (Return _, g) => EntersMain g
  | (Raise e, _) => CrashedAtLoad e
  end.

End DebianModule.

(** ** Libraries the runners call *)

(** Parameters of [public_key.verify] and [private_key.sign]. *)
Inductive hash_alg : Type := SHA256 | SHA1.

Inductive mask_gen : Type := MGF1 (h : hash_alg).

Inductive salt_length : Type := MAX_LENGTH | DIGEST_LENGTH | SaltLen (n : Z).

Inductive padding : Type :=
| PSS (mgf : mask_gen) (salt : salt_length)
| PKCS1v15.

(** The [cryptography] package, [re] and the interpreter of the agent core are
    not code of this repository: the runners are modelled over any behaviour
    of theirs.  A library call that fails raises an exception of the model. *)
Record libs : Type := Libs {
  pubkey : Type;
  privkey : Type;
  (* serialization.load_pem_public_key(data) *)
  load_pem_public_key : bytes -> outcome pubkey;
  (* public_key.verify(signature, data, padding, algorithm): returns None or raises *)
  pk_verify : pubkey -> bytes -> bytes -> padding -> hash_alg -> outcome unit;
  (* private_key.sign(data, padding, algorithm), with the random salt it draws *)
  sk_sign : privkey -> bytes -> bytes -> padding -> hash_alg -> outcome bytes;
  (* re.search of the ls_version pattern in the file's text, group 1 *)
  search_ls_version : bytes -> option string;
  (* executing the module body of lightscope_core.py succeeds *)
  core_module_loads : bytes -> bool
}.

(** ** Installation layout *)

Inductive os_kind : Type := Posix | Win.

(** Where a runner is installed.  The Debian runner is fixed at /opt/lightscope;
    the Windows runner derives LIGHTSCOPE_HOME from its own location and takes
    BIN_DIR = LIGHTSCOPE_HOME when LIGHTSCOPE_HOME/bin does not exist.
    [copy_bufsize] is the buffer size of shutil's copy loop. *)
Record install : Type := Install {
  os : os_kind;
  LIGHTSCOPE_HOME : string;
  bin_is_home : bool;
  copy_bufsize : positive
}.

Definition debian : install := Install Posix "/opt/lightscope" false 65536.

Definition path_join (dir name : string) : string := dir +:+ "/" +:+ name.

Definition CONFIG_DIR (i : install) : string := path_join (LIGHTSCOPE_HOME i) "config".
Definition UPDATES_DIR (i : install) : string := path_join (LIGHTSCOPE_HOME i) "updates".
Definition LOGS_DIR (i : install) : string := path_join (LIGHTSCOPE_HOME i) "logs".
Definition BIN_DIR (i : install) : string :=
  if bin_is_home i then LIGHTSCOPE_HOME i else path_join (LIGHTSCOPE_HOME i) "bin".

(** BIN_DIR / "lightscope_core.py": the live artifact. *)
Definition core_path (i : install) : string := path_join (BIN_DIR i) "lightscope_core.py".

(** CONFIG_DIR / "lightscope-public.pem". *)
Definition bundled_public_key_path (i : install) : string :=
  path_join (CONFIG_DIR i) "lightscope-public.pem".

(** UPDATES_DIR / f"lightscope_core_backup_{int(time.time())}.py". *)
Definition backup_path (i : install) (now : Z) : string :=
  path_join (UPDATES_DIR i) ("lightscope_core_backup_" +:+ pretty now +:+ ".py").

(** ** Files *)

(** Primitive file operations, each atomic; a crash or an OS error falls
    between two of them. *)
Inductive fs_op : Type :=
| OpRename (src dst : string)          (* Path.rename *)
| OpCreate (p : string)                (* open(p, 'wb'): creates or truncates *)
| OpWrite (p : string) (chunk : bytes) (* one write of the copy loop *)
| OpSetMeta (p : string).              (* copystat, chmod: contents unchanged *)

(** [None] is an [OSError].  [Path.rename] replaces an existing target on
    POSIX and raises [FileExistsError] on Windows. *)
Definition apply_op (o : os_kind) (op : fs_op) (d : gmap string bytes)
    : option (gmap string bytes) :=
  match op with
  | OpRename src dst =>
      match d !! src with
      | None => None
      | Some data =>
          match o, d !! dst with
          | Win, Some _ => None
          | _, _ => Some (<[dst := data]> (delete src d))
          end
      end
  | OpCreate p => Some (<[p := []]> d)
  | OpWrite p chunk =>
      match d !! p with
      | Some written => Some (<[p := written ++ chunk]> d)
      | None => None
      end
  | OpSetMeta p =>
      match d !! p with
      | Some _ => Some d
      | None => None
      end
  end.

(** Runs the operations in order and stops at the first that fails. *)
Fixpoint run_ops (o : os_kind) (ops : list fs_op) (d : gmap string bytes)
    : gmap string bytes * bool :=
  match ops with
  | [] => (d, true)
  | op :: rest =>
      match apply_op o op d with
      | Some d' => run_ops o rest d'
      | None => (d, false)
      end
  end.

(** The files on disk when the process dies after [k] of the operations. *)
Definition crash_state (o : os_kind) (ops : list fs_op) (k : nat)
    (d : gmap string bytes) : gmap string bytes :=
  (run_ops o (take k ops) d).1.

(** The reads of shutil.copyfileobj: [while buf := fsrc.read(n): fdst.write(buf)]. *)
Fixpoint read_chunks (fuel n : nat) (data : bytes) : list bytes :=
  match fuel with
  | O => []
  | S fuel' =>
      match data with
      | [] => []
      | _ :: _ => take n data :: read_chunks fuel' n (drop n data)
      end
  end.

(** shutil.copy2(src, dst) of a source holding [data]: copyfile then copystat. *)
Definition copy2_ops (i : install) (data : bytes) (dst : string) : list fs_op :=
  OpCreate dst
  :: map (OpWrite dst) (read_chunks (length data) (Pos.to_nat (copy_bufsize i)) data)
  ++ [OpSetMeta dst].

Definition read_file (fs : gmap string bytes) (p : string) : outcome bytes :=
  match fs !! p with
  | Some data => Return data
  | None => Raise OSError
  end.

Definition exists_file (fs : gmap string bytes) (p : string) : bool :=
  bool_decide (is_Some (fs !! p)).

(** ** SecureUpdater *)

Section Updater.
Context (L : libs) (i : install).

Record SecureUpdater : Type := Updater {
  public_key : option (pubkey L);
  current_version : option string
}.

(** [load_current_version]: the version is replaced only when the file exists
    and the pattern matches; every error is logged and swallowed. *)
Definition load_current_version (d : gmap string bytes) (u : SecureUpdater)
    : SecureUpdater :=
  match d !! core_path i with
  | Some content =>
      match search_ls_version L content with
      | Some v => Updater (public_key u) (Some v)
      | None => u
      end
  | None => u
  end.

(** [load_public_key]. *)
Definition load_public_key (d : gmap string bytes) (u : SecureUpdater)
    : SecureUpdater :=
  match try_except
          (if exists_file d (bundled_public_key_path i) then
             data ← read_file d (bundled_public_key_path i);
             k ← load_pem_public_key L data;
             Return (Some k)
           else Return None)
          [(is_Exception, fun _ => Return None)]
  with
  | Return k => Updater k (current_version u)
  | Raise _ => u
  end.

(** [SecureUpdater.__init__]. *)
Definition new_updater (d : gmap string bytes) : SecureUpdater :=
  load_public_key d (load_current_version d (Updater None None)).

(** [check_for_updates], on what the version endpoint answered: the value of
    the [version] field of the JSON document, or the exception of
    [urlopen] / [json.loads]. *)
Definition check_for_updates (u : SecureUpdater) (response : outcome (option string))
    : outcome bool :=
  try_except
    (latest_version ← response;
     match latest_version with
     | None => Return false
     | Some v =>
         if bool_decide (v = "") then Return false
         else Return (bool_decide (current_version u ≠ Some v))
     end)
    [(is_URLError, fun _ => Return false);
     (is_JSONDecodeError, fun _ => Return false);
     (is_Exception, fun _ => Return false)].

(** The padding both the verifier and the signing tool pass. *)
Definition pss_padding : padding := PSS (MGF1 SHA256) MAX_LENGTH.

(** [verify_signature(file_path, signature_path)] over the files [fs]. *)
Definition verify_signature (u : SecureUpdater) (fs : gmap string bytes)
    (file_path signature_path : string) : outcome bool :=
  match public_key u with
  | None => Return false
  | Some pk =>
      try_except
        (file_data ← read_file fs file_path;
         signature ← read_file fs signature_path;
         _ ← pk_verify L pk signature file_data pss_padding SHA256;
         Return true)
        [(is_InvalidSignature, fun _ => Return false);
         (is_Exception, fun _ => Return false)]
  end.

(** What one call of [download_update] meets: the two downloads, the clock,
    and the operation (if any) at which the operating system refuses. *)
Record attempt : Type := Attempt {
  core_download : outcome bytes;
  sig_download : outcome bytes;
  now : Z;
  io_fault : option nat
}.

(** Backup and install (lines 221-230 of the Debian runner, 197-205 of the
    Windows runner, which has no chmod). *)
Definition install_ops (t : Z) (data : bytes) (d : gmap string bytes) : list fs_op :=
  (if exists_file d (core_path i) then [OpRename (core_path i) (backup_path i t)] else [])
  ++ copy2_ops i data (core_path i)
  ++ match os i with
     | Posix => [OpSetMeta (core_path i)]
     | Win => []
     end.

(** Runs [ops]; with a fault at operation [k] the operations before it have
    taken effect and the call raises. *)
Definition run_with_fault (fault : option nat) (ops : list fs_op)
    (d : gmap string bytes) : gmap string bytes * bool :=
  match fault with
  | Some k =>
      if bool_decide (k < length ops)%nat then ((run_ops (os i) (take k ops) d).1, false)
      else run_ops (os i) ops d
  | None => run_ops (os i) ops d
  end.

(** The temporary directory after the two downloads. *)
Definition scratch (core sig : bytes) : gmap string bytes :=
  <["lightscope_core.py.sig" := sig]> (<["lightscope_core.py" := core]> ∅).

(** [download_update]: the result, the updater and the disk afterwards. *)
Definition download_update (u : SecureUpdater) (a : attempt) (d : gmap string bytes)
    : outcome bool * SecureUpdater * gmap string bytes :=
  match core_download a with
  | Raise e => (try_except (Raise e) [(is_Exception, fun _ => Return false)], u, d)
  | Return core =>
      match sig_download a with
      | Raise e => (try_except (Raise e) [(is_Exception, fun _ => Return false)], u, d)
      | Return sig =>
          match verify_signature u (scratch core sig)
                  "lightscope_core.py" "lightscope_core.py.sig" with
          | Raise e => (try_except (Raise e) [(is_Exception, fun _ => Return false)], u, d)
          | Return false => (Return false, u, d)
          | Return true =>
              match run_with_fault (io_fault a) (install_ops (now a) core d) d with
              | (d', true) => (Return true, load_current_version d' u, d')
              | (d', false) => (Return false, u, d')
              end
          end
      end
  end.

End Updater.

Arguments Updater {L} _ _.
Arguments public_key {L} _.
Arguments current_version {L} _.

(** ** The signing tool *)

(** [sign_file(file_path, private_key, signature_path)] of sign-and-upload.py:
    the result and the files afterwards; [salt] is the randomness of the
    signature. *)
Definition sign_file (L : libs) (fs : gmap string bytes) (file_path : string)
    (private_key : privkey L) (salt : bytes) (signature_path : string)
    : bool * gmap string bytes :=
  match try_except
          (file_data ← read_file fs file_path;
           signature ← sk_sign L private_key file_data salt pss_padding SHA256;
           Return signature)
          [(is_Exception, fun _ => Raise OSError)]
  with
  | Return signature => (true, <[signature_path := signature]> fs)
  | Raise _ => (false, fs)
  end.

(** ** Supervision: the Debian runner *)

(** What the other threads and the signal handler do while the main thread
    is blocked in [time.sleep(1)] or [join]. *)
Inductive async : Type :=
| ASignal                      (* signal_handler: shutdown_event.set() *)
| AUpdateReady                 (* update checker: update_available_event.set() *)
| ACoreReturns                 (* lightscope_run returned: the core thread ends *)
| ACoreRaises                  (* lightscope_run raised: run_core sets shutdown_event *)
| AFiles (ops : list fs_op).   (* file operations of another thread or process *)

(** One entry per second the main thread spends blocked. *)
Definition schedule : Type := list (list async).

Record world : Type := World {
  disk : gmap string bytes;
  shutdown_event : bool;
  update_available_event : bool;
  sys_modules : gmap string bytes;   (* module name to the source it was executed from *)
  core_alive : bool                  (* core_thread.is_alive() *)
}.

Definition set_shutdown (b : bool) (w : world) : world :=
  World (disk w) b (update_available_event w) (sys_modules w) (core_alive w).
Definition set_update (b : bool) (w : world) : world :=
  World (disk w) (shutdown_event w) b (sys_modules w) (core_alive w).
Definition set_alive (b : bool) (w : world) : world :=
  World (disk w) (shutdown_event w) (update_available_event w) (sys_modules w) b.
Definition set_disk (d : gmap string bytes) (w : world) : world :=
  World d (shutdown_event w) (update_available_event w) (sys_modules w) (core_alive w).
Definition set_modules (m : gmap string bytes) (w : world) : world :=
  World (disk w) (shutdown_event w) (update_available_event w) m (core_alive w).

(** What [load_lightscope_core] returns: "restart", True or False. *)
Inductive load_result : Type := LRestart | LTrue | LFalse.

(** What the runner is seen to do. *)
Inductive obs : Type :=
| OReady                                  (* notify_systemd_ready *)
| OStartupUpdate (installed : bool)       (* download_update at startup *)
| OSpawn (name : string)                  (* Thread(...).start() in main *)
| OLoad (r : load_result)                 (* one call of load_lightscope_core *)
| OBackoff (sleep_time : Z) (slept : nat) (* the retry wait and the seconds slept *)
| OJoinThreads.

(** A computation that blocks on the schedule. *)
Inductive progress (A : Type) : Type :=
| Done (a : A)
| Blocked      (* the schedule is used up: still running *)
| NoFuel.
Arguments Done {A} a.
Arguments Blocked {A}.
Arguments NoFuel {A}.

Section Supervisor.
Context (L : libs) (i : install).

Definition happen (w : world) (a : async) : world :=
  match a with
  | ASignal => set_shutdown true w
  | AUpdateReady => set_update true w
  | ACoreReturns => set_alive false w
  | ACoreRaises => if core_alive w then set_alive false (set_shutdown true w) else w
  | AFiles ops => set_disk (run_ops (os i) ops (disk w)).1 w
  end.

Definition during (sec : list async) (w : world) : world := foldl happen w sec.

(** Lines 334-339.  [import lightscope_core] makes the name a local of
    [load_lightscope_core]; the reload branch binds nothing to it.  The result
    says whether the local is bound. *)
Definition import_or_reload (w : world) : outcome bool * world :=
  match disk w !! core_path i with
  | None => (Raise ImportError, w)
  | Some source =>
      match sys_modules w !! "lightscope_core" with
      | Some _ =>
          if core_module_loads L source
          then (Return false, set_modules (<["lightscope_core" := source]> (sys_modules w)) w)
          else (Raise RuntimeError, w)
      | None =>
          if core_module_loads L source
          then (Return true, set_modules (<["lightscope_core" := source]> (sys_modules w)) w)
          else (Raise RuntimeError, w)
      end
  end.

(** Lines 342-347: attribute assignments through the local name. *)
Definition use_local (bound : bool) : outcome unit :=
  if bound then Return tt else Raise UnboundLocalError.

(** Lines 368-378: [Some] when the loop is left. *)
Definition poll (w : world) : option world :=
  if negb (core_alive w) then Some w
  else if shutdown_event w then Some w
  else if update_available_event w then Some (set_shutdown true w)
  else None.

Fixpoint monitor (w : world) (sch : schedule) : option (world * schedule) :=
  match poll w with
  | Some w' => Some (w', sch)
  | None =>
      match sch with
      | [] => None
      | sec :: rest => monitor (during sec w) rest
      end
  end.

(** Line 381: [core_thread.join(timeout)]. *)
Fixpoint join (timeout : nat) (w : world) (sch : schedule) : option (world * schedule) :=
  if negb (core_alive w) then Some (w, sch)
  else match timeout with
       | O => Some (w, sch)
       | S t =>
           match sch with
           | [] => None
           | sec :: rest => join t (during sec w) rest
           end
       end.

(** Lines 361-388, from the start of the core thread. *)
Definition supervise_core (w : world) (sch : schedule)
    : option (load_result * world * schedule) :=
  match monitor (set_alive true w) sch with
  | None => None
  | Some (w1, sch1) =>
      match join 30 w1 sch1 with
      | None => None
      | Some (w2, sch2) =>
          Some (if update_available_event w2 then LRestart else LTrue, w2, sch2)
      end
  end.

(** [load_lightscope_core] of the Debian runner. *)
Definition load_lightscope_core (w : world) (sch : schedule)
    : option (load_result * world * schedule) :=
  if negb (exists_file (disk w) (core_path i)) then Some (LFalse, w, sch)
  else
    match import_or_reload w with
    | (Raise e, w1) =>
        if is_KeyboardInterrupt e then Some (LTrue, set_shutdown true w1, sch)
        else Some (LFalse, w1, sch)
    | (Return bound, w1) =>
        match use_local bound with
        | Raise e =>
            if is_KeyboardInterrupt e then Some (LTrue, set_shutdown true w1, sch)
            else Some (LFalse, w1, sch)
        | Return _ => supervise_core w1 sch
        end
    end.

Definition max_consecutive_failures : Z := 5%Z.

(** Line 463. *)
Definition sleep_time (consecutive_failures : Z) : Z :=
  Z.min (10 * 2 ^ (consecutive_failures - 1)) 60%Z.

(** Lines 466-469: the seconds slept, out of [n]. *)
Fixpoint backoff_sleep (n : nat) (w : world) (sch : schedule)
    : option (nat * world * schedule) :=
  match n with
  | O => Some (O, w, sch)
  | S n' =>
      if shutdown_event w then Some (O, w, sch)
      else match sch with
           | [] => None
           | sec :: rest =>
               match backoff_sleep n' (during sec w) rest with
               | Some (k, w', sch') => Some (S k, w', sch')
               | None => None
               end
           end
  end.

(** Lines 435-469: the loop, with what it did, how it ended and the world
    then.  [Raise (SystemExit 1)] is [sys.exit(1)]. *)
Fixpoint main_loop (fuel : nat) (w : world) (consecutive_failures : Z) (sch : schedule)
    : list obs * progress (outcome unit) * world :=
  match fuel with
  | O => ([], NoFuel, w)
  | S fuel' =>
      if shutdown_event w then ([], Done (Return tt), w)
      else
        match load_lightscope_core w sch with
        | None => ([], Blocked, w)
        | Some (LRestart, w1, sch1) =>
            let '(t, e, w') :=
              main_loop fuel' (set_shutdown false (set_update false w1)) 0%Z sch1 in
            (OLoad LRestart :: t, e, w')
        | Some (LTrue, w1, sch1) => ([OLoad LTrue], Done (Return tt), w1)
        | Some (LFalse, w1, sch1) =>
            let consecutive_failures := (consecutive_failures + 1)%Z in
            if bool_decide (max_consecutive_failures <= consecutive_failures)%Z then
              ([OLoad LFalse], Done (Raise (SystemExit 1)), w1)
            else
              match backoff_sleep (Z.to_nat (sleep_time consecutive_failures)) w1 sch1 with
              | None => ([OLoad LFalse], Blocked, w1)
              | Some (slept, w2, sch2) =>
                  let '(t, e, w') := main_loop fuel' w2 consecutive_failures sch2 in
                  (OLoad LFalse :: OBackoff (sleep_time consecutive_failures) slept :: t, e, w')
              end
        end
  end.

(** The exit status of the process for the way the body of [main] ended
    (lines 478-485): SystemExit passes both handlers. *)
Definition exit_code (body : outcome unit) : Z :=
  match body with
  | Return _ => 0%Z
  | Raise KeyboardInterrupt => 0%Z
  | Raise (SystemExit c) => c
  | Raise _ => 1%Z
  end.

(** What [main] meets at startup: the answer of the version endpoint and the
    update attempt that follows it. *)
Record startup : Type := Startup {
  version_response : outcome (option string);
  startup_attempt : attempt
}.

(** Lines 417-424. *)
Definition startup_update (u : SecureUpdater L) (s : startup) (d : gmap string bytes)
    : outcome (list obs) * SecureUpdater L * gmap string bytes :=
  match check_for_updates L u (version_response s) with
  | Raise e => (Raise e, u, d)
  | Return false => (Return [], u, d)
  | Return true =>
      match download_update L i u (startup_attempt s) d with
      | (Raise e, u', d') => (Raise e, u', d')
      | (Return ok, u', d') => (Return [OStartupUpdate ok], u', d')
      end
  end.

(** Lines 426-476 on the disk [d]: the two threads, the loop and the end
    of [main], after a startup that was seen to do [t0]. *)
Definition run_supervision (fuel : nat) (t0 : list obs) (d : gmap string bytes)
    (sch : schedule) : list obs * progress Z * world :=
  let '(t, e, w) := main_loop fuel (World d false false ∅ false) 0%Z sch in
  let before := OReady :: t0 ++ [OSpawn "Update-Checker"; OSpawn "Watchdog"] in
  match e with
  | Done (Return _) => (before ++ t ++ [OJoinThreads], Done 0%Z, set_shutdown true w)
  | Done (Raise x) => (before ++ t, Done (exit_code (Raise x)), w)
  | Blocked => (before ++ t, Blocked, w)
  | NoFuel => (before ++ t, NoFuel, w)
  end.

(** [main] of the Debian runner on the disk [d]. *)
Definition main (fuel : nat) (d : gmap string bytes) (s : startup) (sch : schedule)
    : list obs * progress Z * world :=
  let updater := new_updater L i d in
  match startup_update updater s d with
  | (Raise e, _, d') => ([OReady], Done (exit_code (Raise e)), World d' false false ∅ false)
  | (Return t0, _, d') => run_supervision fuel t0 d' sch
  end.

End Supervisor.

(** ** The update checker thread (Debian runner, lines 265-297) *)

(** What one turn of the thread's loop meets. *)
Record check_round (L : libs) : Type := Round {
  shutdown_seen : bool;                       (* shutdown_event.is_set() at the top *)
  round_time : Z;                             (* time.time() *)
  round_response : outcome (option string);   (* the version endpoint *)
  round_attempt : attempt                     (* the download, if one starts *)
}.
Arguments Round {L} _ _ _ _.
Arguments shutdown_seen {L} _.
Arguments round_time {L} _.
Arguments round_response {L} _.
Arguments round_attempt {L} _.

Inductive checker_obs : Type :=
| CkCheck (update_available : bool)   (* check_for_updates returned *)
| CkInstall (ok : bool)               (* download_update returned *)
| CkSignal                            (* update_available_event.set() *)
| CkWait (seconds : Z).               (* shutdown_event.wait(seconds) *)

Inductive thread_end : Type :=
| ThreadExited            (* the loop was left: the function returns *)
| ThreadDied (e : exn)    (* an exception [except Exception] does not catch *)
| ThreadRunning.          (* no turn left to look at *)

Section UpdateChecker.
Context (L : libs) (i : install).

Definition update_interval : Z := (60 * 60)%Z.

(** The loop from [last_update_check]; the updater and the disk are the
    thread's view of the shared updater object and of the files. *)
Fixpoint update_checker_loop (rounds : list (check_round L)) (u : SecureUpdater L)
    (d : gmap string bytes) (last_update_check : Z)
    : list checker_obs * thread_end * SecureUpdater L * gmap string bytes :=
  match rounds with
  | [] => ([], ThreadRunning, u, d)
  | r :: rest =>
      if shutdown_seen r then ([], ThreadExited, u, d)
      else
        let current_time := round_time r in
        if bool_decide (current_time - last_update_check > update_interval)%Z then
          match check_for_updates L u (round_response r) with
          | Raise e =>
              if is_Exception e then
                let '(t, e', u', d') := update_checker_loop rest u d last_update_check in
                (CkWait 300 :: t, e', u', d')
              else ([], ThreadDied e, u, d)
          | Return false =>
              let '(t, e', u', d') := update_checker_loop rest u d current_time in
              (CkCheck false :: CkWait 60 :: t, e', u', d')
          | Return true =>
              match download_update L i u (round_attempt r) d with
              | (Raise e, u1, d1) =>
                  if is_Exception e then
                    let '(t, e', u', d') := update_checker_loop rest u1 d1 last_update_check in
                    (CkCheck true :: CkWait 300 :: t, e', u', d')
                  else ([CkCheck true], ThreadDied e, u1, d1)
              | (Return true, u1, d1) =>
                  ([CkCheck true; CkInstall true; CkSignal], ThreadExited, u1, d1)
              | (Return false, u1, d1) =>
                  let '(t, e', u', d') := update_checker_loop rest u1 d1 current_time in
                  (CkCheck true :: CkInstall false :: CkWait 60 :: t, e', u', d')
              end
          end
        else
          let '(t, e', u', d') := update_checker_loop rest u d last_update_check in
          (CkWait 60 :: t, e', u', d')
  end.

(** [update_checker_thread(updater)], started at time [started]. *)
Definition update_checker_thread (started : Z) (rounds : list (check_round L))
    (u : SecureUpdater L) (d : gmap string bytes)
    : list checker_obs * thread_end * SecureUpdater L * gmap string bytes :=
  update_checker_loop rounds u d started.

End UpdateChecker.

(** ** Supervision: the Windows runner *)

(** How [import lightscope_core; lightscope_core.lightscope_run()] ends. *)
Inductive core_run : Type := RunReturns | RunInterrupted | RunRaises.

(** What one turn of the Windows main loop meets. *)
Record win_round : Type := WinRound {
  wr_time : Z;                              (* time.time() at the top *)
  wr_response : outcome (option string);    (* the version endpoint *)
  wr_attempt : attempt;                     (* the download, if one starts *)
  wr_core : core_run;                       (* the agent core, if it is started *)
  wr_sleep_interrupted : bool               (* KeyboardInterrupt during time.sleep *)
}.

Section WindowsRunner.
Context (L : libs) (i : install).

Definition win_update_interval : Z := (24 * 60 * 60)%Z.
Definition win_max_consecutive_failures : Z := 3%Z.

(** Lines 226-230: with SCRIPT_DIR either LIGHTSCOPE_HOME or its bin
    directory, the three candidates are these two. *)
Definition possible_paths : list string :=
  [core_path i; path_join (LIGHTSCOPE_HOME i) "lightscope_core.py"].

(** [load_lightscope_core] of the Windows runner: True or False. *)
Definition win_load_lightscope_core (d : gmap string bytes) (run : core_run) : bool :=
  if existsb (exists_file d) possible_paths then
    match run with
    | RunReturns => true
    | RunInterrupted => true
    | RunRaises => false
    end
  else false.

(** Lines 388-400: [Some e] when the periodic check ends the loop by raising. *)
Definition win_periodic_update (r : win_round) (u : SecureUpdater L)
    (d : gmap string bytes) : option exn * SecureUpdater L * gmap string bytes :=
  match check_for_updates L u (wr_response r) with
  | Raise e => (if is_Exception e then None else Some e, u, d)
  | Return false => (None, u, d)
  | Return true =>
      match download_update L i u (wr_attempt r) d with
      | (Raise e, u1, d1) => (if is_Exception e then None else Some e, u1, d1)
      | (Return true, u1, d1) => (Some (SystemExit 0), u1, d1)
      | (Return false, u1, d1) => (None, u1, d1)
      end
  end.

(** Lines 385-418. *)
Fixpoint win_main_loop (rounds : list win_round) (u : SecureUpdater L)
    (d : gmap string bytes) (last_update_check consecutive_failures : Z)
    : list obs * progress (outcome unit) * gmap string bytes :=
  match rounds with
  | [] => ([], Blocked, d)
  | r :: rest =>
      let current_time := wr_time r in
      let '(raised, u1, d1, last1) :=
        if bool_decide (current_time - last_update_check > win_update_interval)%Z then
          let '(x, u', d') := win_periodic_update r u d in (x, u', d', current_time)
        else (None, u, d, last_update_check) in
      match raised with
      | Some e => ([], Done (Raise e), d1)
      | None =>
          if win_load_lightscope_core d1 (wr_core r) then ([OLoad LTrue], Done (Return tt), d1)
          else
            let consecutive_failures := (consecutive_failures + 1)%Z in
            if bool_decide (win_max_consecutive_failures <= consecutive_failures)%Z then
              ([OLoad LFalse], Done (Raise (SystemExit 1)), d1)
            else if wr_sleep_interrupted r then
              ([OLoad LFalse; OBackoff (sleep_time consecutive_failures) 0],
               Done (Raise KeyboardInterrupt), d1)
            else
              let '(t, e, d') := win_main_loop rest u1 d1 last1 consecutive_failures in
              (OLoad LFalse
               :: OBackoff (sleep_time consecutive_failures)
                    (Z.to_nat (sleep_time consecutive_failures)) :: t, e, d')
      end
  end.

(** [main] of the Windows runner, started at time [started]. *)
Definition win_main (is_admin npcap_installed : bool) (started : Z)
    (d : gmap string bytes) (s : startup) (rounds : list win_round)
    : list obs * progress Z * gmap string bytes :=
  if negb is_admin then ([], Done 1%Z, d)
  else if negb npcap_installed then ([], Done 1%Z, d)
  else
    let updater := new_updater L i d in
    match startup_update L i updater s d with
    | (Raise e, _, d') => ([], Done (exit_code (Raise e)), d')
    | (Return t0, u', d') =>
        let '(t, e, d'') := win_main_loop rounds u' d' started 0%Z in
        (t0 ++ t,
         match e with
         | Done body => Done (exit_code body)
         | Blocked => Blocked
         | NoFuel => NoFuel
         end, d'')
    end.

End WindowsRunner.

(** ** A small instance of the libraries

    Keys are byte strings and a signature is the key followed by the data:
    enough to run the definitions above on concrete inputs. *)

Definition toy_verify (pk signature data : bytes) (p : padding) (h : hash_alg)
    : outcome unit :=
  if bool_decide (signature = pk ++ data) then Return tt else Raise InvalidSignature.

Definition toy_sign (sk data salt : bytes) (p : padding) (h : hash_alg) : outcome bytes :=
  Return (sk ++ data).

Definition toy_libs : libs :=
  Libs bytes bytes (fun data => Return data) toy_verify toy_sign
       (fun content => match content with [] => None | _ => Some "2.0.0" end)
       (fun _ => true).

Definition old_core : bytes := [Byte.x01; Byte.x02; Byte.x03].
Definition new_core : bytes := [Byte.x0a; Byte.x0b; Byte.x0c; Byte.x0d].
Definition toy_key : bytes := [Byte.x4b].

(** An installation whose copy loop moves two bytes at a time. *)
Definition small_posix : install := Install Posix "/opt/lightscope" false 2.
Definition small_windows : install := Install Win "C:/LightScope" false 2.

Definition quiet (n : nat) : schedule := replicate n [].

(** An updater that holds the key and runs version 1.0.0. *)
Definition toy_updater : SecureUpdater toy_libs :=
  @Updater toy_libs (Some toy_key) (Some "1.0.0").

(** A download of [new_core] with a signature that is not its own. *)
Definition bad_signature_attempt : attempt :=
  Attempt (Return new_core) (Return [Byte.xff]) 1700000000 None.

(** A download of [new_core] with the signature of [toy_key] over it. *)
Definition good_attempt : attempt :=
  Attempt (Return new_core) (Return (toy_key ++ new_core)) 1700003700 None.

(** Four turns of the update checker started at 1700000000: too early, a
    bad signature, too early again, a good update. *)
Definition checker_rounds : list (check_round toy_libs) :=
  [ Round false 1700000060 (Return (Some "2.0.0")) good_attempt;
    Round false 1700003700 (Return (Some "2.0.0")) bad_signature_attempt;
    Round false 1700003760 (Return (Some "2.0.0")) good_attempt;
    Round false 1700007400 (Return (Some "2.0.0")) good_attempt ].

(** A disk that holds the agent core and nothing else (no public key). *)
Definition core_only (i : install) (core : bytes) : gmap string bytes :=
  {[core_path i := core]}.

(** The claim that an install never shows a missing or partial live artifact:
    whenever the process dies, the live path holds all of the old artifact or
    all of the new one. *)
Definition live_always_complete (i : install) (t : Z) (old new : bytes)
    (d : gmap string bytes) : Prop :=
  forall k,
    crash_state (os i) (install_ops i t new d) k d !! core_path i = Some old
    \/ crash_state (os i) (install_ops i t new d) k d !! core_path i = Some new.

(** ** Schedules and traces *)

(** An action that sets [shutdown_event]. *)
Definition sets_shutdown (a : async) : bool :=
  match a with
  | ASignal | ACoreRaises => true
  | _ => false
  end.

(** A second in which nothing sets [shutdown_event]. *)
Definition calm (sec : list async) : bool :=
  forallb (fun a => negb (sets_shutdown a)) sec.

(** A second in which at most the update checker works on its files. *)
Definition files_only (sec : list async) : bool :=
  forallb (fun a => match a with AFiles _ => true | _ => false end) sec.

(** A second in which the update checker sets [update_available_event], the
    agent core keeps running and no signal arrives. *)
Definition update_second (sec : list async) : bool :=
  forallb (fun a => match a with AFiles _ | AUpdateReady => true | _ => false end) sec
  && existsb (fun a => match a with AUpdateReady => true | _ => false end) sec.

(** The retry waits of a run, in order. *)
Definition backoff_delays (t : list obs) : list Z :=
  omap (fun o => match o with OBackoff s _ => Some s | _ => None end) t.

(** The results of the calls of [load_lightscope_core], in order. *)
Definition loads (t : list obs) : list load_result :=
  omap (fun o => match o with OLoad r => Some r | _ => None end) t.

(** The threads started, in order. *)
Definition spawns (t : list obs) : list string :=
  omap (fun o => match o with OSpawn n => Some n | _ => None end) t.

(** The results of the calls after which the loop started the core again. *)
Definition reentered_after (t : list obs) : list load_result :=
  match loads t with
  | [] => []
  | l => take (length l - 1) l
  end.

(** Successful installs of the update checker thread. *)
Definition is_install (o : checker_obs) : bool :=
  match o with
  | CkInstall true => true
  | _ => false
  end.

Definition installs (t : list checker_obs) : nat := length (List.filter is_install t).

(** A turn of the Windows loop with no periodic check, a failing core and
    an undisturbed wait. *)
Definition failing_round (i : install) (started : Z) (d : gmap string bytes)
    (r : win_round) : Prop :=
  (wr_time r - started <= win_update_interval)%Z
  /\ win_load_lightscope_core i d (wr_core r) = false
  /\ wr_sleep_interrupted r = false.

(** What a run of the update checker thread may look like: at most one
    successful install; and when the thread installed or signalled, that was
    the last thing it did before its function returned. *)
Definition at_most_one_update (t : list checker_obs) (e : thread_end) : Prop :=
  (installs t ≤ 1)%nat
  /\ (In CkSignal t \/ installs t = 1%nat ->
      e = ThreadExited
      /\ exists t0, t = t0 ++ [CkCheck true; CkInstall true; CkSignal]
                    /\ installs t0 = 0%nat /\ ~ In CkSignal t0).

(** The network is down at startup. *)
Definition net_down : startup :=
  Startup (Raise URLError) (Attempt (Raise URLError) (Raise URLError) 1700000000 None).

(** A startup whose calls raise nothing that [except Exception] lets through. *)
Definition raises_only_exceptions {A} (o : outcome A) : bool :=
  match o with
  | Return _ => true
  | Raise e => is_Exception e
  end.

Definition ordinary_startup (s : startup) : bool :=
  raises_only_exceptions (version_response s)
  && raises_only_exceptions (core_download (startup_attempt s))
  && raises_only_exceptions (sig_download (startup_attempt s)).

(** The Debian runner started on a disk without the agent core, with the
    network down and no signal for 200 seconds. *)
Definition five_failures_run : list obs * progress Z * world :=
  main toy_libs debian 10 ∅ net_down (quiet 200).

(** The Debian runner started on a disk that holds the agent core and no
    public key; the core returns during the second second. *)
Definition keyless_run : list obs * progress Z * world :=
  main toy_libs debian 10 (core_only debian old_core) net_down
       ([] :: [ACoreReturns] :: quiet 5).

(** The Debian runner started on a disk without the agent core, with the
    network down; a signal arrives during the first second of the second
    retry wait. *)
Definition retry_run : list obs * progress Z * world :=
  main toy_libs debian 10 ∅ net_down (quiet 10 ++ [ASignal] :: quiet 5).

(** The claim that a missing public key stops the process at startup: it
    exits non-zero without starting the agent core. *)
Definition refuses_to_start (r : list obs * progress Z * world) : Prop :=
  (exists c, r.1.2 = Done c /\ c ≠ 0%Z) /\ loads r.1.1 = [].

(** The claim that only an update re-enters the loop: every call of
    [load_lightscope_core] that is followed by another one returned "restart". *)
Definition only_restart_reenters (t : list obs) : Prop :=
  Forall (fun r => r = LRestart) (reentered_after t).

(** ** The watchdog thread (Debian runner, lines 242-249 and 299-312) *)

(** What one turn of the watchdog loop meets. *)
Record watchdog_round : Type := WdRound {
  wd_shutdown_seen : bool;    (* shutdown_event.is_set() at the top *)
  wd_notify : outcome unit    (* systemd.daemon.notify('WATCHDOG=1') *)
}.

Inductive watchdog_obs : Type :=
| WdSent              (* the notification went out *)
| WdWarning           (* it failed: a warning is logged *)
| WdWait (seconds : Z).

(** [notify_systemd_watchdog()], with SYSTEMD_AVAILABLE. *)
Definition notify_systemd_watchdog (available : bool) (notify : outcome unit)
    : outcome (list watchdog_obs) :=
  if available then
    try_except (_ ← notify; Return [WdSent]) [(is_Exception, fun _ => Return [WdWarning])]
  else Return [].

(** [watchdog_thread()]. *)
Fixpoint watchdog_thread (available : bool) (rounds : list watchdog_round)
    : list watchdog_obs * thread_end :=
  match rounds with
  | [] => ([], ThreadRunning)
  | r :: rest =>
      if wd_shutdown_seen r then ([], ThreadExited)
      else
        match notify_systemd_watchdog available (wd_notify r) with
        | Return t =>
            let '(t', e) := watchdog_thread available rest in
            (t ++ WdWait 15 :: t', e)
        | Raise x =>
            if is_Exception x then
              let '(t', e) := watchdog_thread available rest in
              (WdWait 15 :: t', e)
            else ([], ThreadDied x)
        end
  end.

(** The notifications tried in a run of the thread. *)
Definition heartbeats (t : list watchdog_obs) : nat :=
  length (List.filter (fun o => match o with WdSent | WdWarning => true | _ => false end) t).

(** The turns of the loop before shutdown is seen. *)
Fixpoint turns_before_shutdown (rounds : list watchdog_round) : nat :=
  match rounds with
  | [] => O
  | r :: rest => if wd_shutdown_seen r then O else S (turns_before_shutdown rest)
  end.

(** ** The Windows service (lightscope-service-windows.py) *)

Module WindowsService.

(** What the host offers while the module body runs. *)
Record host : Type := Host {
  pywin32_importable : bool;     (* servicemanager, win32event, ... import *)
  script_dir : string;           (* Path(__file__).parent.absolute() *)
  script_dir_parent : string;    (* its parent *)
  script_dir_is_bin : bool;      (* SCRIPT_DIR.name == "bin" *)
  venv_dir_exists : bool;        (* VENV_DIR.exists() *)
  venv_python_exists : bool;     (* VENV_PYTHON.exists() *)
  bin_dir_exists : bool          (* BIN_DIR.exists() *)
}.

Definition home (h : host) : string :=
  if script_dir_is_bin h then script_dir_parent h else script_dir h.

(** Lines 7-20. *)
Definition imports (h : host) : DebianModule.stmt :=
  DebianModule.seq
    (DebianModule.block (map (fun m => DebianModule.assign m (DebianModule.VModule m))
       ["os"; "sys"; "time"; "json"; "logging"; "tempfile"; "subprocess"; "urllib"; "Path"]))
    (if pywin32_importable h then
       DebianModule.block (map (fun m => DebianModule.assign m (DebianModule.VModule m))
         ["servicemanager"; "win32event"; "win32service"; "win32serviceutil"])
     else DebianModule.raise_stmt ImportError).

(** Lines 23-35. *)
Definition locate (h : host) : DebianModule.stmt :=
  DebianModule.block
    [ DebianModule.assign "current_dir" (DebianModule.VPath (script_dir h));
      DebianModule.assign "SCRIPT_DIR" (DebianModule.VPath (script_dir h));
      DebianModule.assign "LIGHTSCOPE_HOME" (DebianModule.VPath (home h)) ].

(** Lines 38-52: every branch calls a method of [logger]. *)
Definition venv_block (h : host) : DebianModule.stmt :=
  DebianModule.seq
    (DebianModule.assign "VENV_DIR" (DebianModule.VPath (path_join (home h) "venv")))
    (if venv_dir_exists h then
       DebianModule.seq
         (DebianModule.assign "VENV_PYTHON"
            (DebianModule.VPath (path_join (path_join (path_join (home h) "venv") "Scripts")
                                   "python.exe")))
         (if venv_python_exists h then
            DebianModule.seq
              (DebianModule.assign "venv_site_packages"
                 (DebianModule.VPath (path_join (path_join (path_join (home h) "venv") "Lib")
                                        "site-packages")))
              (DebianModule.use_name "logger")
          else
            DebianModule.seq (DebianModule.assign "VENV_PYTHON" DebianModule.VNone)
                             (DebianModule.use_name "logger"))
     else
       DebianModule.seq (DebianModule.assign "VENV_PYTHON" DebianModule.VNone)
                        (DebianModule.use_name "logger")).

(** Lines 54-73: the logger is bound at line 73. *)
Definition directories_and_logging (h : host) : DebianModule.stmt :=
  DebianModule.block
    [ DebianModule.assign "CONFIG_DIR" (DebianModule.VPath (path_join (home h) "config"));
      DebianModule.assign "UPDATES_DIR" (DebianModule.VPath (path_join (home h) "updates"));
      DebianModule.assign "LOGS_DIR" (DebianModule.VPath (path_join (home h) "logs"));
      DebianModule.assign "BIN_DIR"
        (DebianModule.VPath (if bin_dir_exists h then path_join (home h) "bin" else home h));
      DebianModule.assign "logger" (DebianModule.VLogger "lightscope-service") ].

Definition module_body (h : host) : DebianModule.stmt :=
  DebianModule.block [ imports h; locate h; venv_block h; directories_and_logging h ].

(** Running the script: [main()] at line 327 needs the module body to end. *)
Definition run_script (h : host) : DebianModule.script_start :=
  match module_body h ∅ with
  | (Return _, g) => DebianModule.EntersMain g
  | (Raise e, _) => DebianModule.CrashedAtLoad e
  end.

(** What one turn of the loop of [SvcDoRun] meets. *)
Record svc_round : Type := SvcRound {
  sr_alive : bool;               (* self.is_alive at the top of the turn *)
  sr_disk : gmap string bytes;   (* the files when the runner script is looked for *)
  sr_popen : outcome unit;       (* subprocess.Popen *)
  sr_exit : option Z;            (* the runner's exit code; None when SvcStop came first *)
  sr_stop_in_wait : bool         (* hWaitStop is set during the retry wait *)
}.

Inductive svc_obs : Type :=
| SvcMissing                      (* no runner script found *)
| SvcLaunch                       (* the runner process is started *)
| SvcExit (code : Z)              (* it exited *)
| SvcError                        (* the handler of the loop body ran *)
| SvcWait (seconds : Z) (stopped : bool).

Definition max_consecutive_failures : Z := 3%Z.

(** Lines 126-130, with SCRIPT_DIR either LIGHTSCOPE_HOME or its bin directory. *)
Definition possible_runner_paths (i : install) : list string :=
  [path_join (BIN_DIR i) "lightscope-runner-windows.py";
   path_join (LIGHTSCOPE_HOME i) "lightscope-runner-windows.py"].

(** Lines 120-194: the loop of [SvcDoRun]. *)
Fixpoint SvcDoRun (i : install) (rounds : list svc_round) (consecutive_failures : Z)
    : list svc_obs * progress (outcome unit) :=
  match rounds with
  | [] => ([], Blocked)
  | r :: rest =>
      if negb (sr_alive r) then ([], Done (Return tt))
      else if negb (existsb (exists_file (sr_disk r)) (possible_runner_paths i)) then
        let '(t, e) := SvcDoRun i rest consecutive_failures in
        (SvcMissing :: SvcWait 30 false :: t, e)
      else
        match sr_popen r with
        | Raise x =>
            if is_Exception x then
              let consecutive_failures := (consecutive_failures + 1)%Z in
              if bool_decide (max_consecutive_failures <= consecutive_failures)%Z then
                ([SvcError], Done (Return tt))
              else
                let '(t, e) := SvcDoRun i rest consecutive_failures in
                (SvcError :: SvcWait 30 false :: t, e)
            else ([], Done (Raise x))
        | Return _ =>
            match sr_exit r with
            | None => ([SvcLaunch], Done (Return tt))
            | Some exit_code =>
                if bool_decide (exit_code = 0%Z) then
                  ([SvcLaunch; SvcExit exit_code], Done (Return tt))
                else
                  let consecutive_failures := (consecutive_failures + 1)%Z in
                  if bool_decide (max_consecutive_failures <= consecutive_failures)%Z then
                    ([SvcLaunch; SvcExit exit_code], Done (Return tt))
                  else if sr_stop_in_wait r then
                    ([SvcLaunch; SvcExit exit_code;
                      SvcWait (sleep_time consecutive_failures) true], Done (Return tt))
                  else
                    let '(t, e) := SvcDoRun i rest consecutive_failures in
                    (SvcLaunch :: SvcExit exit_code
                       :: SvcWait (sleep_time consecutive_failures) false :: t, e)
            end
        end
  end.

(** The runner processes started in a run of the service. *)
Definition launches (t : list svc_obs) : nat :=
  length (List.filter (fun o => match o with SvcLaunch => true | _ => false end) t).

(** A turn in which the service is alive and finds no runner script. *)
Definition script_missing (i : install) (r : svc_round) : bool :=
  sr_alive r && negb (existsb (exists_file (sr_disk r)) (possible_runner_paths i)).

End WindowsService.

(** ** The signing tool, further *)

Section SigningTool.
Context (L : libs).
(** hashlib.sha256(data).hexdigest(): the hash object is the bytes fed to
    [update] so far. *)
Variable sha256_hexdigest : bytes -> string.

(** [get_file_hash(file_path)]: blocks of 4096 bytes until the read is empty. *)
Definition get_file_hash (fs : gmap string bytes) (file_path : string) : outcome string :=
  data ← read_file fs file_path;
  Return (sha256_hexdigest
            (foldl (fun sha256_hash byte_block => sha256_hash ++ byte_block) []
                   (read_chunks (length data) 4096 data))).


(** [load_private_key(private_key_path)], over the library's PEM loader for
    private keys. *)
Definition load_private_key (load_pem_private_key : bytes -> outcome (privkey L))
    (fs : gmap string bytes) (private_key_path : string) : outcome (option (privkey L)) :=
  try_except
    (pem ← read_file fs private_key_path;
     k ← load_pem_private_key pem;
     Return (Some k))
    [(is_Exception, fun _ => Return None)].

(** [verify_signature(file_path, signature_path, public_key_path)] of the
    signing tool. *)
Definition tool_verify_signature (fs : gmap string bytes)
    (file_path signature_path public_key_path : string) : outcome bool :=
  try_except
    (pem ← read_file fs public_key_path;
     public_key ← load_pem_public_key L pem;
     file_data ← read_file fs file_path;
     signature ← read_file fs signature_path;
     _ ← pk_verify L public_key signature file_data pss_padding SHA256;
     Return true)
    [(is_Exception, fun _ => Return false)].

(** [create_version_info(file_path, version)]: the dictionary, in insertion order. *)
Definition create_version_info (fs : gmap string bytes) (file_path version : string)
    : outcome (list (string * string)) :=
  file_hash ← get_file_hash fs file_path;
  Return [ ("version", version);
           ("sha256", file_hash);
           ("filename", "lightscope_core.py");
           ("download_url", "https://thelightscope.com/latest/lightscope_core.py");
           ("signature_url", "https://thelightscope.com/latest/lightscope_core.py.sig");
           ("public_key_url", "https://thelightscope.com/latest/public-key");
           ("version_url", "https://thelightscope.com/latest/version");
           ("release_notes", "LightScope version " +:+ version);
           ("minimum_runner_version", "1.0.0") ].

End SigningTool.

(** ** More predicates on runs *)

(** A retry wait within its bounds: between 10 and 60 seconds planned, and
    no more slept than planned. *)
Definition wait_in_bounds (o : obs) : Prop :=
  match o with
  | OBackoff s slept => (10 <= s <= 60)%Z /\ (slept ≤ Z.to_nat s)%nat
  | _ => True
  end.

(** A turn of the update checker whose network calls raise nothing that
    [except Exception] lets through. *)
Definition ordinary_round {L : libs} (r : check_round L) : bool :=
  raises_only_exceptions (round_response r)
  && raises_only_exceptions (core_download (round_attempt r))
  && raises_only_exceptions (sig_download (round_attempt r)).

(** A library whose [verify] fails only with exceptions that
    [except Exception] catches. *)
Definition ordinary_verify (L : libs) : Prop :=
  forall pk signature data e,
    pk_verify L pk signature data pss_padding SHA256 = Raise e -> is_Exception e = true.

(** The disk after a complete install of [new] at time [t]. *)
Definition installed (i : install) (t : Z) (new : bytes) (d : gmap string bytes)
    : gmap string bytes :=
  <[core_path i := new]>
    match d !! core_path i with
    | Some old => <[backup_path i t := old]> (delete (core_path i) d)
    | None => d
    end.

(** The world of the Debian runner right after its first import of the core. *)
Definition world_after_import (d : gmap string bytes) (loaded : bytes) : world :=
  World d false false {["lightscope_core" := loaded]} false.

(** A turn of the Windows service in which the runner exits with [code]. *)
Definition runner_exits (d : gmap string bytes) (code : Z) : WindowsService.svc_round :=
  WindowsService.SvcRound true d (Return tt) (Some code) false.

(** An instance of the libraries whose PEM loader refuses an empty file. *)
Definition picky_libs : libs :=
  Libs bytes bytes
       (fun data => match data with [] => Raise ValueError | _ => Return data end)
       toy_verify toy_sign
       (fun content => match content with [] => None | _ => Some "2.0.0" end)
       (fun _ => true).

(** A disk that holds the agent core and an empty public key file. *)
Definition empty_key_disk : gmap string bytes :=
  <[bundled_public_key_path debian := []]> (core_only debian old_core).

(** A second in which the core thread ends, by returning or by raising, and
    nothing else happens but work on the files. *)
Definition core_end_action (a : async) : bool :=
  match a with AFiles _ | ACoreReturns | ACoreRaises => true | _ => false end.

Definition core_end_second (sec : list async) : bool :=
  forallb core_end_action sec
  && existsb (fun a => match a with ACoreReturns | ACoreRaises => true | _ => false end) sec.

(** * Properties *)

(** ** Paths *)

Lemma string_app_cons (x : Ascii.ascii) (a b : string) :
  String x a +:+ b = String x (a +:+ b).
Proof. reflexivity. Qed.

Lemma string_app_assoc (a b c : string) : (a +:+ b) +:+ c = a +:+ (b +:+ c).
Proof.
  induction a as [|x a IH]; [reflexivity|].
  rewrite !string_app_cons. by rewrite IH.
Qed.

Lemma core_path_not_backup (i : install) (t : Z) : core_path i ≠ backup_path i t.
Proof.
  unfold core_path, backup_path, BIN_DIR, UPDATES_DIR, path_join.
  destruct (bin_is_home i); rewrite ?string_app_assoc; intros H;
    apply (inj (String.app (LIGHTSCOPE_HOME i))) in H;
    rewrite ?string_app_cons in H; discriminate H.
Qed.

(** ** Module load *)

(** C10: when [import systemd.daemon] fails, the ImportError handler of the
    Debian runner evaluates [logger] before line 56 binds it: loading the
    module raises NameError, the namespace holds SYSTEMD_AVAILABLE = False and
    no logger, and [main] is never entered. *)
Theorem module_load_without_systemd_raises_NameError (log_ok : bool) :
  DebianModule.run_script (DebianModule.Host false log_ok)
    = DebianModule.CrashedAtLoad NameError
  /\ (DebianModule.module_body (DebianModule.Host false log_ok) ∅).1 = Raise NameError
  /\ (DebianModule.module_body (DebianModule.Host false log_ok) ∅).2 !! "logger" = None
  /\ (DebianModule.module_body (DebianModule.Host false log_ok) ∅).2 !! "SYSTEMD_AVAILABLE"
       = Some (DebianModule.VBool false).
Proof. destruct log_ok; vm_compute; auto. Qed.

(** With systemd importable the same module body binds the logger and
    reaches [main]. *)
Lemma module_load_with_systemd_enters_main :
  exists g, DebianModule.run_script (DebianModule.Host true true) = DebianModule.EntersMain g
            /\ g !! "logger" = Some (DebianModule.VLogger "lightscope-runner")
            /\ g !! "SYSTEMD_AVAILABLE" = Some (DebianModule.VBool true).
Proof. eexists. split; [vm_compute; reflexivity|]. split; vm_compute; reflexivity. Qed.

(** ** Signature verification *)

Section VerifyProperties.
Context (L : libs) (i : install).

Lemma verify_signature_no_key (u : SecureUpdater L) fs file_path signature_path :
  public_key u = None ->
  verify_signature L u fs file_path signature_path = Return false.
Proof. intros H. unfold verify_signature. by rewrite H. Qed.

Lemma verify_signature_true_inv (u : SecureUpdater L) fs file_path signature_path :
  verify_signature L u fs file_path signature_path = Return true ->
  exists pk data signature,
    public_key u = Some pk /\ fs !! file_path = Some data
    /\ fs !! signature_path = Some signature
    /\ pk_verify L pk signature data pss_padding SHA256 = Return tt.
Proof.
  unfold verify_signature, read_file.
  destruct (public_key u) as [pk|]; [|discriminate].
  destruct (fs !! file_path) as [data|]; [|discriminate].
  destruct (fs !! signature_path) as [signature|]; [|discriminate].
  cbn. destruct (pk_verify L pk signature data pss_padding SHA256) as [[]|e] eqn:Hv.
  - intros _. by exists pk, data, signature.
  - cbn. destruct (is_InvalidSignature e); [discriminate|].
    destruct (is_Exception e); discriminate.
Qed.

(** C3: [verify_signature] returns a boolean whatever the key state, the
    files and the signature bytes are, provided the library's [verify] fails
    by raising an [Exception] (InvalidSignature for a malformed signature, a
    wrong key or a digest mismatch).  The boolean is False when no public key
    was loaded, False when [verify] raises, and True exactly when both files
    were read and [verify] accepted them. *)
Theorem verify_signature_returns_bool (u : SecureUpdater L) fs file_path signature_path :
  (forall pk signature data e,
      pk_verify L pk signature data pss_padding SHA256 = Raise e -> is_Exception e = true) ->
  exists b : bool,
    verify_signature L u fs file_path signature_path = Return b
    /\ (public_key u = None -> b = false)
    /\ (forall pk data signature e,
          public_key u = Some pk -> fs !! file_path = Some data ->
          fs !! signature_path = Some signature ->
          pk_verify L pk signature data pss_padding SHA256 = Raise e -> b = false)
    /\ (b = true <->
        exists pk data signature,
          public_key u = Some pk /\ fs !! file_path = Some data
          /\ fs !! signature_path = Some signature
          /\ pk_verify L pk signature data pss_padding SHA256 = Return tt).
Proof.
  intros Hlib.
  destruct (verify_signature L u fs file_path signature_path) as [b|e] eqn:Hv.
  - exists b. split; [reflexivity|]. split; [|split].
    + intros Hk. rewrite verify_signature_no_key in Hv by done. congruence.
    + intros pk data signature e Hk Hf Hs Hr. destruct b; [|reflexivity].
      apply verify_signature_true_inv in Hv
        as (pk' & data' & signature' & Hk' & Hf' & Hs' & Hok).
      congruence.
    + split.
      * intros ->. by apply verify_signature_true_inv.
      * intros (pk & data & signature & Hk & Hf & Hs & Hok).
        unfold verify_signature, read_file in Hv.
        rewrite Hk, Hf, Hs in Hv. cbn in Hv. rewrite Hok in Hv. cbn in Hv. congruence.
  - exfalso. unfold verify_signature, read_file in Hv.
    destruct (public_key u) as [pk|]; [|discriminate].
    destruct (fs !! file_path) as [data|]; [|discriminate].
    destruct (fs !! signature_path) as [signature|]; [|discriminate].
    cbn in Hv.
    destruct (pk_verify L pk signature data pss_padding SHA256) as [[]|e'] eqn:Hp;
      [discriminate|].
    cbn in Hv. apply Hlib in Hp.
    destruct (is_InvalidSignature e'); [discriminate|].
    rewrite Hp in Hv. discriminate.
Qed.

End VerifyProperties.

(** ** Files: running and interrupting a list of operations *)

Lemma run_ops_app o (a b : list fs_op) (d : gmap string bytes) :
  run_ops o (a ++ b) d
  = match run_ops o a d with
    | (d1, true) => run_ops o b d1
    | (d1, false) => (d1, false)
    end.
Proof.
  revert d. induction a as [|op a IH]; intros d; cbn; [reflexivity|].
  destruct (apply_op o op d) as [d'|]; [apply IH | reflexivity].
Qed.

Lemma crash_state_0 o ops (d : gmap string bytes) : crash_state o ops 0 d = d.
Proof. unfold crash_state. by rewrite take_0. Qed.

Lemma crash_state_cons o op ops k (d : gmap string bytes) :
  crash_state o (op :: ops) (S k) d
  = match apply_op o op d with
    | Some d' => crash_state o ops k d'
    | None => d
    end.
Proof. unfold crash_state. cbn. by destruct (apply_op o op d). Qed.

Lemma crash_state_app o (a b : list fs_op) k (d : gmap string bytes) :
  crash_state o (a ++ b) k d
  = if bool_decide (k ≤ length a)%nat then crash_state o a k d
    else match run_ops o a d with
         | (d1, true) => crash_state o b (k - length a) d1
         | (d1, false) => d1
         end.
Proof.
  unfold crash_state. rewrite take_app. case_bool_decide as Hk.
  - replace (k - length a) with 0 by lia. by rewrite take_0, app_nil_r.
  - rewrite take_ge by lia. rewrite run_ops_app.
    by destruct (run_ops o a d) as [d1 []].
Qed.

Lemma run_writes o p (cs : list bytes) (acc : bytes) (d : gmap string bytes) :
  d !! p = Some acc ->
  run_ops o (map (OpWrite p) cs) d = (<[p := acc ++ concat cs]> d, true).
Proof.
  revert acc d. induction cs as [|c cs IH]; intros acc d Hp;
    cbn [map run_ops apply_op concat].
  - by rewrite app_nil_r, insert_id.
  - rewrite Hp. rewrite (IH (acc ++ c)) by apply lookup_insert_eq.
    by rewrite insert_insert_eq, app_assoc.
Qed.

Lemma run_setmeta o p (ms : list fs_op) k (d : gmap string bytes) :
  Forall (fun op => op = OpSetMeta p) ms -> crash_state o ms k d = d.
Proof.
  intros Hms. revert k. induction Hms as [|op ms -> _ IH]; intros k.
  - unfold crash_state. by rewrite take_nil.
  - destruct k as [|k]; [apply crash_state_0|].
    rewrite crash_state_cons. cbn [apply_op].
    destruct (d !! p); [apply IH | reflexivity].
Qed.

Lemma read_chunks_concat (fuel n : nat) (data : bytes) :
  (0 < n)%nat -> (length data ≤ fuel)%nat -> concat (read_chunks fuel n data) = data.
Proof.
  intros Hn. revert data. induction fuel as [|fuel IH]; intros data Hlen.
  - destruct data; [reflexivity | cbn in Hlen; lia].
  - destruct data as [|x l]; [reflexivity|].
    cbn [read_chunks concat]. rewrite IH.
    + apply take_drop.
    + rewrite length_drop. cbn [length] in *. lia.
Qed.

Lemma concat_take_prefix (cs : list bytes) (k : nat) :
  concat (take k cs) = take (length (concat (take k cs))) (concat cs).
Proof.
  transitivity (take (length (concat (take k cs)))
                  (concat (take k cs) ++ concat (drop k cs))).
  - by rewrite take_app_length.
  - by rewrite <- concat_app, take_drop.
Qed.

(** The copy, interrupted after [k] operations: nothing yet, or the
    destination holds a prefix of the source. *)
Lemma crash_during_copy (i : install) (data : bytes) (p : string)
    (ms : list fs_op) (k : nat) (d : gmap string bytes) :
  Forall (fun op => op = OpSetMeta p) ms ->
  (crash_state (os i) (copy2_ops i data p ++ ms) k d = d
   \/ exists n, crash_state (os i) (copy2_ops i data p ++ ms) k d = <[p := take n data]> d)
  /\ ((length (copy2_ops i data p ++ ms) ≤ k)%nat ->
      crash_state (os i) (copy2_ops i data p ++ ms) k d = <[p := data]> d).
Proof.
  intros Hms. unfold copy2_ops.
  set (cs := read_chunks (length data) (Pos.to_nat (copy_bufsize i)) data).
  assert (Hcs : concat cs = data).
  { apply read_chunks_concat; [lia | done]. }
  destruct k as [|k].
  { split; [left; apply crash_state_0 | cbn; lia]. }
  rewrite <- app_comm_cons, crash_state_cons. cbn [apply_op].
  rewrite <- app_assoc, crash_state_app, length_map.
  case_bool_decide as Hk.
  - unfold crash_state. rewrite <- fmap_take.
    rewrite (run_writes _ _ _ []) by apply lookup_insert_eq.
    cbn [fst app]. rewrite insert_insert_eq. split.
    + right. exists (length (concat (take k cs))).
      by rewrite <- Hcs, <- concat_take_prefix.
    + intros Hlen. cbn in Hlen. rewrite !length_app, length_map in Hlen.
      cbn in Hlen. lia.
  - rewrite (run_writes _ _ _ []) by apply lookup_insert_eq.
    cbn [app]. rewrite insert_insert_eq, Hcs.
    rewrite (run_setmeta _ p) by (constructor; [reflexivity | exact Hms]).
    split; [|done]. right. exists (length data). by rewrite take_ge.
Qed.

(** ** The installer *)

Section InstallProperties.
Context (L : libs) (i : install).

Lemma exists_file_true (d : gmap string bytes) p (x : bytes) :
  d !! p = Some x -> exists_file d p = true.
Proof. intros H. unfold exists_file. apply bool_decide_eq_true. by rewrite H. Qed.

(** C1, as the code has it: the old artifact is renamed to its backup and the
    verified one is then copied (shutil.copy2), not renamed, into the live
    path.  Whenever the process dies during the install, a complete copy of
    the old artifact is at the live path or at the backup path; the live path
    holds the old artifact, nothing, or a prefix of the new artifact; and
    when every operation ran, the live path holds the whole new artifact and
    the backup the old one. *)
Theorem install_crash_keeps_old_artifact (t : Z) (old new : bytes)
    (d : gmap string bytes) (k : nat) :
  d !! core_path i = Some old ->
  (crash_state (os i) (install_ops i t new d) k d !! core_path i = Some old
   \/ crash_state (os i) (install_ops i t new d) k d !! backup_path i t = Some old)
  /\ (crash_state (os i) (install_ops i t new d) k d !! core_path i = Some old
      \/ crash_state (os i) (install_ops i t new d) k d !! core_path i = None
      \/ exists n,
           crash_state (os i) (install_ops i t new d) k d !! core_path i
           = Some (take n new))
  /\ (os i = Posix \/ d !! backup_path i t = None ->
      (length (install_ops i t new d) ≤ k)%nat ->
      crash_state (os i) (install_ops i t new d) k d !! core_path i = Some new
      /\ crash_state (os i) (install_ops i t new d) k d !! backup_path i t = Some old).
Proof.
  intros Hold. unfold install_ops. rewrite (exists_file_true _ _ _ Hold).
  pose proof (core_path_not_backup i t) as Hne.
  set (ms := match os i with Posix => [OpSetMeta (core_path i)] | Win => [] end).
  assert (Hms : Forall (fun op => op = OpSetMeta (core_path i)) ms).
  { unfold ms. destruct (os i); repeat constructor. }
  cbn [app]. destruct k as [|k].
  { rewrite crash_state_0. split; [by left|]. split; [by left|].
    intros _ Hlen. cbn [length] in Hlen. exfalso. lia. }
  rewrite crash_state_cons. cbn [apply_op]. rewrite Hold.
  set (d1 := <[backup_path i t := old]> (delete (core_path i) d)).
  assert (Hd1c : d1 !! core_path i = None).
  { unfold d1. rewrite lookup_insert_ne by done. apply lookup_delete_eq. }
  assert (Hd1b : d1 !! backup_path i t = Some old) by apply lookup_insert_eq.
  assert (Hgo :
    (crash_state (os i) (copy2_ops i new (core_path i) ++ ms) k d1 !! core_path i = None
     \/ exists n, crash_state (os i) (copy2_ops i new (core_path i) ++ ms) k d1
                    !! core_path i = Some (take n new))
    /\ crash_state (os i) (copy2_ops i new (core_path i) ++ ms) k d1 !! backup_path i t
       = Some old
    /\ ((length (copy2_ops i new (core_path i) ++ ms) ≤ k)%nat ->
        crash_state (os i) (copy2_ops i new (core_path i) ++ ms) k d1 !! core_path i
        = Some new)).
  { destruct (crash_during_copy i new (core_path i) ms k d1 Hms) as [[Hc|[n Hc]] Hfull].
    - rewrite Hc. split; [by left|]. split; [done|].
      intros Hlen. rewrite Hfull in Hc by done.
      rewrite <- Hc. apply lookup_insert_eq.
    - rewrite Hc. split; [right; exists n; apply lookup_insert_eq|].
      split; [by rewrite lookup_insert_ne|].
      intros Hlen. rewrite Hfull in Hc by done.
      rewrite <- Hc. apply lookup_insert_eq. }
  destruct Hgo as (Hlive & Hbackup & Hfull).
  assert (Hrun :
    crash_state (os i) (copy2_ops i new (core_path i) ++ ms) k d1 !! core_path i = Some old
    \/ crash_state (os i) (copy2_ops i new (core_path i) ++ ms) k d1 !! core_path i = None
    \/ exists n, crash_state (os i) (copy2_ops i new (core_path i) ++ ms) k d1
                   !! core_path i = Some (take n new)).
  { destruct Hlive as [?|?]; auto. }
  destruct (os i) eqn:Hos.
  - split; [by right|]. split; [exact Hrun|].
    intros _ Hlen. split; [|done]. apply Hfull. cbn [length] in Hlen. lia.
  - destruct (d !! backup_path i t) as [b|] eqn:Hb.
    + split; [by left|]. split; [by left|].
      intros [?|?]; discriminate.
    + split; [by right|]. split; [exact Hrun|].
      intros _ Hlen. split; [|done]. apply Hfull. cbn [length] in Hlen. lia.
Qed.

Lemma download_update_unverified (u : SecureUpdater L) (a : attempt)
    (d : gmap string bytes) r u' d' :
  download_update L i u a d = (r, u', d') ->
  d' ≠ d \/ r = Return true ->
  exists core sig,
    core_download a = Return core /\ sig_download a = Return sig
    /\ verify_signature L u (scratch core sig) "lightscope_core.py" "lightscope_core.py.sig"
       = Return true.
Proof.
  unfold download_update. intros Hrun Hchg.
  destruct (core_download a) as [core|e].
  2:{ inversion Hrun; subst. destruct Hchg as [?|Hr]; [done|].
      cbn in Hr. destruct (is_Exception e); discriminate. }
  destruct (sig_download a) as [sig|e].
  2:{ inversion Hrun; subst. destruct Hchg as [?|Hr]; [done|].
      cbn in Hr. destruct (is_Exception e); discriminate. }
  destruct (verify_signature L u (scratch core sig) _ _) as [[]|e] eqn:Hv.
  - by exists core, sig.
  - inversion Hrun; subst. destruct Hchg as [?|?]; [done|discriminate].
  - inversion Hrun; subst. destruct Hchg as [?|Hr]; [done|].
    cbn in Hr. destruct (is_Exception e); discriminate.
Qed.

(** Whatever [download_update] meets, an operating-system error in the
    middle of the install included, the disk it leaves is the disk it found or
    one of the interrupted states of the install. *)
Lemma download_update_leaves_crash_state (u : SecureUpdater L) (a : attempt)
    (d : gmap string bytes) :
  (download_update L i u a d).2 = d
  \/ exists core k,
       core_download a = Return core
       /\ (download_update L i u a d).2
          = crash_state (os i) (install_ops i (now a) core d) k d.
Proof.
  unfold download_update.
  destruct (core_download a) as [core|e]; [|by left].
  destruct (sig_download a) as [sig|e]; [|by left].
  destruct (verify_signature L u (scratch core sig) _ _) as [[]|e]; [|by left..].
  right. exists core. unfold run_with_fault, crash_state.
  destruct (io_fault a) as [k|].
  - case_bool_decide.
    + exists k. split; [reflexivity|]. done.
    + exists (length (install_ops i (now a) core d)). split; [reflexivity|].
      rewrite take_ge by lia.
      by destruct (run_ops (os i) (install_ops i (now a) core d) d) as [d' []].
  - exists (length (install_ops i (now a) core d)). split; [reflexivity|].
    rewrite take_ge by lia.
    by destruct (run_ops (os i) (install_ops i (now a) core d) d) as [d' []].
Qed.

(** C2: when the downloaded artifact and signature fail verification,
    [download_update] returns False and the updater and every file (the live
    artifact and the backups among them) are as before the call; and a call
    that changes a file or returns True had a True result of
    [verify_signature] on the pair it downloaded. *)
Theorem failed_verification_aborts_install (u : SecureUpdater L) (a : attempt)
    (d : gmap string bytes) :
  (forall core sig,
      core_download a = Return core -> sig_download a = Return sig ->
      verify_signature L u (scratch core sig) "lightscope_core.py" "lightscope_core.py.sig"
        = Return false ->
      download_update L i u a d = (Return false, u, d))
  /\ (forall r u' d',
        download_update L i u a d = (r, u', d') ->
        d' ≠ d \/ r = Return true ->
        exists core sig,
          core_download a = Return core /\ sig_download a = Return sig
          /\ verify_signature L u (scratch core sig)
               "lightscope_core.py" "lightscope_core.py.sig" = Return true).
Proof.
  split.
  - intros core sig Hc Hs Hv. unfold download_update. by rewrite Hc, Hs, Hv.
  - apply download_update_unverified.
Qed.

End InstallProperties.

(** The claim of C1 fails on the Debian runner: after the rename to the
    backup the live path is absent, after the copy has opened it it is empty,
    and in neither state does it hold the old or the new artifact. *)
Lemma install_leaves_live_path_absent :
  crash_state Posix (install_ops debian 1700000000 new_core (core_only debian old_core)) 1
      (core_only debian old_core) !! core_path debian = None
  /\ crash_state Posix (install_ops debian 1700000000 new_core (core_only debian old_core)) 2
      (core_only debian old_core) !! core_path debian = Some []
  /\ ~ live_always_complete debian 1700000000 old_core new_core
         (core_only debian old_core).
Proof.
  split; [vm_compute; reflexivity|]. split; [vm_compute; reflexivity|].
  intros H. specialize (H 1%nat). vm_compute in H. destruct H; discriminate.
Qed.

Lemma install_crash_keeps_old_artifact_witness :
  (core_only small_posix old_core) !! core_path small_posix = Some old_core
  /\ crash_state Posix
       (install_ops small_posix 1700000000 new_core (core_only small_posix old_core)) 3
       (core_only small_posix old_core) !! backup_path small_posix 1700000000
     = Some old_core.
Proof.
  assert (H : core_only small_posix old_core !! core_path small_posix = Some old_core)
    by (vm_compute; reflexivity).
  split; [exact H|].
  destruct (install_crash_keeps_old_artifact small_posix 1700000000 old_core new_core
              (core_only small_posix old_core) 3 H) as ([Hl|Hb] & _).
  - vm_compute in Hl. discriminate.
  - exact Hb.
Defined.

Lemma failed_verification_aborts_install_witness :
  download_update toy_libs small_posix toy_updater bad_signature_attempt
      (core_only small_posix old_core)
  = (Return false, toy_updater, core_only small_posix old_core).
Proof.
  apply (proj1 (failed_verification_aborts_install toy_libs small_posix toy_updater
                  bad_signature_attempt (core_only small_posix old_core))
           new_core [Byte.xff]).
  - reflexivity.
  - reflexivity.
  - vm_compute. reflexivity.
Defined.

Lemma verify_signature_returns_bool_witness :
  exists b : bool,
    verify_signature toy_libs toy_updater (scratch new_core [Byte.xff])
      "lightscope_core.py" "lightscope_core.py.sig" = Return b.
Proof.
  destruct (verify_signature_returns_bool toy_libs toy_updater
              (scratch new_core [Byte.xff]) "lightscope_core.py" "lightscope_core.py.sig")
    as (b & Hb & _).
  - intros pk signature data e. cbn. unfold toy_verify.
    destruct (bool_decide (signature = pk ++ data)); [discriminate|].
    intros [= <-]. reflexivity.
  - exists b. exact Hb.
Defined.

(** ** The events under the schedule *)

Section SupervisorProperties.
Context (L : libs) (i : install).

Lemma happen_shutdown_mono (w : world) (a : async) :
  shutdown_event w = true -> shutdown_event (happen i w a) = true.
Proof. destruct a; cbn; try done. destruct (core_alive w); done. Qed.

Lemma happen_update_mono (w : world) (a : async) :
  update_available_event w = true -> update_available_event (happen i w a) = true.
Proof. destruct a; cbn; try done. destruct (core_alive w); done. Qed.

Lemma during_shutdown_mono (sec : list async) (w : world) :
  shutdown_event w = true -> shutdown_event (during i sec w) = true.
Proof.
  unfold during. revert w. induction sec as [|a sec IH]; intros w H; cbn; [done|].
  apply IH. by apply happen_shutdown_mono.
Qed.

Lemma during_update_mono (sec : list async) (w : world) :
  update_available_event w = true -> update_available_event (during i sec w) = true.
Proof.
  unfold during. revert w. induction sec as [|a sec IH]; intros w H; cbn; [done|].
  apply IH. by apply happen_update_mono.
Qed.

Lemma during_signal (sec : list async) (w : world) :
  In ASignal sec -> shutdown_event (during i sec w) = true.
Proof.
  unfold during. revert w. induction sec as [|a sec IH]; intros w; cbn; [done|].
  intros [->|Hin]; [|by apply IH].
  apply (during_shutdown_mono sec). reflexivity.
Qed.

Lemma during_calm (sec : list async) (w : world) :
  calm sec = true -> shutdown_event (during i sec w) = shutdown_event w.
Proof.
  unfold during, calm. revert w. induction sec as [|a sec IH]; intros w; cbn; [done|].
  intros [Ha Hsec]%andb_true_iff. rewrite IH by done.
  destruct a; try done.
Qed.

Lemma during_nil (w : world) : during i [] w = w.
Proof. reflexivity. Qed.

(** ** Backoff *)

Lemma backoff_sleep_shutdown (n : nat) (w : world) (sch : schedule) :
  shutdown_event w = true -> backoff_sleep i n w sch = Some (0%nat, w, sch).
Proof. intros H. destruct n; cbn; [done|]. by rewrite H. Qed.

Lemma backoff_sleep_quiet (n : nat) (w : world) (rest : schedule) :
  shutdown_event w = false -> backoff_sleep i n w (quiet n ++ rest) = Some (n, w, rest).
Proof.
  intros H. induction n as [|n IH]; cbn; [done|].
  rewrite H. unfold quiet in IH. by rewrite ?during_nil, IH.
Qed.

(** A signal during the wait: the wait ends with the second in which the
    signal arrived. *)
Lemma backoff_sleep_interrupted (n : nat) (pre : schedule) (sec : list async)
    (rest : schedule) (w : world) :
  shutdown_event w = false ->
  forallb calm pre = true ->
  (length pre < n)%nat ->
  In ASignal sec ->
  exists w',
    backoff_sleep i n w (pre ++ sec :: rest) = Some (S (length pre), w', rest)
    /\ shutdown_event w' = true.
Proof.
  revert n w. induction pre as [|s pre IH]; intros n w Hw Hpre Hn Hsig.
  - destruct n as [|n]; [cbn in Hn; lia|]. cbn. rewrite Hw.
    rewrite backoff_sleep_shutdown by (by apply during_signal).
    eexists. split; [reflexivity|]. by apply during_signal.
  - destruct n as [|n]; [cbn in Hn; lia|].
    cbn in Hpre. apply andb_true_iff in Hpre as [Hs Hpre].
    cbn [app backoff_sleep]. rewrite Hw.
    destruct (IH n (during i s w)) as (w' & Hrun & Hw'); try done.
    + rewrite during_calm; done.
    + cbn in Hn. lia.
    + rewrite Hrun. exists w'. done.
Qed.

Lemma load_missing_core (w : world) (sch : schedule) :
  disk w !! core_path i = None ->
  load_lightscope_core L i w sch = Some (LFalse, w, sch).
Proof.
  intros H. unfold load_lightscope_core, exists_file.
  rewrite bool_decide_eq_false_2; [done|]. rewrite H. by intros [? ?].
Qed.

Lemma main_loop_shutdown (fuel : nat) (w : world) (cf : Z) (sch : schedule) :
  shutdown_event w = true ->
  main_loop L i (S fuel) w cf sch = ([], Done (Return tt), w).
Proof. intros H. cbn. by rewrite H. Qed.

(** One failed start below the limit: the wait, then the loop again. *)
Lemma main_loop_failure (fuel : nat) (w w1 w2 : world) (cf : Z)
    (sch sch1 sch2 : schedule) (slept : nat) :
  shutdown_event w = false ->
  load_lightscope_core L i w sch = Some (LFalse, w1, sch1) ->
  (cf + 1 < max_consecutive_failures)%Z ->
  backoff_sleep i (Z.to_nat (sleep_time (cf + 1))) w1 sch1 = Some (slept, w2, sch2) ->
  main_loop L i (S fuel) w cf sch
  = (OLoad LFalse :: OBackoff (sleep_time (cf + 1)) slept
       :: (main_loop L i fuel w2 (cf + 1) sch2).1.1,
     (main_loop L i fuel w2 (cf + 1) sch2).1.2,
     (main_loop L i fuel w2 (cf + 1) sch2).2).
Proof.
  intros Hw Hload Hcf Hsleep. cbn [main_loop]. rewrite Hw, Hload.
  rewrite bool_decide_eq_false_2 by lia. rewrite Hsleep.
  by destruct (main_loop L i fuel w2 (cf + 1) sch2) as [[t e] w'].
Qed.

(** The failed start that reaches the limit: [sys.exit(1)], no wait. *)
Lemma main_loop_last_failure (fuel : nat) (w w1 : world) (cf : Z)
    (sch sch1 : schedule) :
  shutdown_event w = false ->
  load_lightscope_core L i w sch = Some (LFalse, w1, sch1) ->
  (max_consecutive_failures <= cf + 1)%Z ->
  main_loop L i (S fuel) w cf sch = ([OLoad LFalse], Done (Raise (SystemExit 1)), w1).
Proof.
  intros Hw Hload Hcf. cbn [main_loop]. rewrite Hw, Hload.
  by rewrite bool_decide_eq_true_2 by lia.
Qed.

Lemma main_loop_missing_core (fuel : nat) (w : world) (rest : schedule) :
  disk w !! core_path i = None ->
  shutdown_event w = false ->
  main_loop L i (5 + fuel) w 0 (quiet 130 ++ rest)
  = ([OLoad LFalse; OBackoff 10 10; OLoad LFalse; OBackoff 20 20;
      OLoad LFalse; OBackoff 40 40; OLoad LFalse; OBackoff 60 60; OLoad LFalse],
     Done (Raise (SystemExit 1)), w).
Proof.
  intros Hd Hw.
  change (quiet 130) with (quiet 10 ++ quiet 20 ++ quiet 40 ++ quiet 60).
  rewrite <- !app_assoc.
  change (5 + fuel)%nat with (S (S (S (S (S fuel))))).
  erewrite (main_loop_failure _ w w w 0 _ _ _ 10);
    [| done | by apply load_missing_core | done
     | apply (backoff_sleep_quiet 10); done ].
  erewrite (main_loop_failure _ w w w 1 _ _ _ 20);
    [| done | by apply load_missing_core | done
     | apply (backoff_sleep_quiet 20); done ].
  erewrite (main_loop_failure _ w w w 2 _ _ _ 40);
    [| done | by apply load_missing_core | done
     | apply (backoff_sleep_quiet 40); done ].
  erewrite (main_loop_failure _ w w w 3 _ _ _ 60);
    [| done | by apply load_missing_core | done
     | apply (backoff_sleep_quiet 60); done ].
  erewrite (main_loop_last_failure _ w w (3 + 1) _ rest);
    [reflexivity | done | by apply load_missing_core | done].
Qed.

End SupervisorProperties.

(** ** Retry and backoff *)

Section WindowsProperties.
Context (L : libs) (i : install).

Lemma win_main_loop_failure (u : SecureUpdater L) (d : gmap string bytes)
    (last cf : Z) (r : win_round) (rest : list win_round) :
  failing_round i last d r ->
  (cf + 1 < win_max_consecutive_failures)%Z ->
  win_main_loop L i (r :: rest) u d last cf
  = (OLoad LFalse
       :: OBackoff (sleep_time (cf + 1)) (Z.to_nat (sleep_time (cf + 1)))
       :: (win_main_loop L i rest u d last (cf + 1)).1.1,
     (win_main_loop L i rest u d last (cf + 1)).1.2,
     (win_main_loop L i rest u d last (cf + 1)).2).
Proof.
  intros (Ht & Hc & Hs) Hcf. cbn [win_main_loop].
  rewrite (bool_decide_eq_false_2 (wr_time r - last > win_update_interval)%Z) by lia.
  rewrite Hc.
  rewrite (bool_decide_eq_false_2 (win_max_consecutive_failures <= cf + 1)%Z) by lia.
  rewrite Hs.
  by destruct (win_main_loop L i rest u d last (cf + 1)) as [[t e] d'].
Qed.

Lemma win_main_loop_last_failure (u : SecureUpdater L) (d : gmap string bytes)
    (last cf : Z) (r : win_round) (rest : list win_round) :
  failing_round i last d r ->
  (win_max_consecutive_failures <= cf + 1)%Z ->
  win_main_loop L i (r :: rest) u d last cf
  = ([OLoad LFalse], Done (Raise (SystemExit 1)), d).
Proof.
  intros (Ht & Hc & Hs) Hcf. cbn [win_main_loop].
  rewrite (bool_decide_eq_false_2 (wr_time r - last > win_update_interval)%Z) by lia.
  rewrite Hc.
  by rewrite (bool_decide_eq_true_2 (win_max_consecutive_failures <= cf + 1)%Z) by lia.
Qed.

(** KeyboardInterrupt during [time.sleep]: the wait ends at once and [main]
    returns through its handler, with no further start of the core. *)
Lemma win_main_loop_interrupted (u : SecureUpdater L) (d : gmap string bytes)
    (last cf : Z) (r : win_round) (rest : list win_round) :
  (wr_time r - last <= win_update_interval)%Z ->
  win_load_lightscope_core i d (wr_core r) = false ->
  wr_sleep_interrupted r = true ->
  (cf + 1 < win_max_consecutive_failures)%Z ->
  win_main_loop L i (r :: rest) u d last cf
  = ([OLoad LFalse; OBackoff (sleep_time (cf + 1)) 0], Done (Raise KeyboardInterrupt), d)
  /\ exit_code (Raise KeyboardInterrupt) = 0%Z.
Proof.
  intros Ht Hc Hs Hcf. split; [|reflexivity]. cbn [win_main_loop].
  rewrite (bool_decide_eq_false_2 (wr_time r - last > win_update_interval)%Z) by lia.
  rewrite Hc.
  rewrite (bool_decide_eq_false_2 (win_max_consecutive_failures <= cf + 1)%Z) by lia.
  by rewrite Hs.
Qed.

Lemma win_main_loop_three_failures (u : SecureUpdater L) (d : gmap string bytes)
    (started : Z) (r1 r2 r3 : win_round) (rest : list win_round) :
  failing_round i started d r1 -> failing_round i started d r2 ->
  failing_round i started d r3 ->
  win_main_loop L i (r1 :: r2 :: r3 :: rest) u d started 0
  = ([OLoad LFalse; OBackoff 10 10; OLoad LFalse; OBackoff 20 20; OLoad LFalse],
     Done (Raise (SystemExit 1)), d).
Proof.
  intros H1 H2 H3.
  rewrite (win_main_loop_failure u d started 0 r1) by done.
  rewrite (win_main_loop_failure u d started (0 + 1) r2) by done.
  rewrite (win_main_loop_last_failure u d started (0 + 1 + 1) r3) by done.
  reflexivity.
Qed.

End WindowsProperties.

(** C4, as the code has it: the wait after the n-th consecutive failure is
    min(10 * 2^(n-1), 60) seconds, which is 10, 20, 40, 60 for n = 1..4.  In
    the Debian runner the fifth consecutive failure raises SystemExit(1)
    before any wait is computed, so a run of five failures sleeps 10, 20, 40
    and 60 seconds, starts the core five times and exits with status 1
    without a sixth start.  The Windows runner stops at the third failure,
    after waits of 10 and 20 seconds. *)
Theorem backoff_then_fatal_exit (L : libs) (i : install) :
  map sleep_time [1; 2; 3; 4]%Z = [10; 20; 40; 60]%Z
  /\ (forall n : Z, (1 <= n)%Z -> sleep_time n = Z.min (10 * 2 ^ (n - 1)) 60
                                  /\ (sleep_time n <= 60)%Z)
  /\ (forall fuel w w1 sch sch1,
        shutdown_event w = false ->
        load_lightscope_core L i w sch = Some (LFalse, w1, sch1) ->
        main_loop L i (S fuel) w 4 sch
        = ([OLoad LFalse], Done (Raise (SystemExit 1)), w1))
  /\ (forall fuel w rest,
        disk w !! core_path i = None ->
        shutdown_event w = false ->
        main_loop L i (5 + fuel) w 0 (quiet 130 ++ rest)
        = ([OLoad LFalse; OBackoff 10 10; OLoad LFalse; OBackoff 20 20;
            OLoad LFalse; OBackoff 40 40; OLoad LFalse; OBackoff 60 60; OLoad LFalse],
           Done (Raise (SystemExit 1)), w))
  /\ exit_code (Raise (SystemExit 1)) = 1%Z
  /\ (forall u d started r1 r2 r3 rest,
        failing_round i started d r1 -> failing_round i started d r2 ->
        failing_round i started d r3 ->
        win_main_loop L i (r1 :: r2 :: r3 :: rest) u d started 0
        = ([OLoad LFalse; OBackoff 10 10; OLoad LFalse; OBackoff 20 20; OLoad LFalse],
           Done (Raise (SystemExit 1)), d)).
Proof.
  split; [reflexivity|]. split.
  { intros n Hn. split; [reflexivity|]. unfold sleep_time. lia. }
  split.
  { intros fuel w w1 sch sch1 Hw Hload.
    by apply (main_loop_last_failure L i fuel w w1 4 sch sch1). }
  split; [intros; by apply main_loop_missing_core|].
  split; [reflexivity|].
  intros. by apply win_main_loop_three_failures.
Qed.

(** The claim of C4 fails on the Debian runner: a run of five consecutive
    failures waits four times, not five; there is no wait of 60 seconds after
    the fifth failure. *)
Lemma five_failures_wait_four_times :
  loads five_failures_run.1.1 = [LFalse; LFalse; LFalse; LFalse; LFalse]
  /\ five_failures_run.1.2 = Done 1%Z
  /\ backoff_delays five_failures_run.1.1 = [10; 20; 40; 60]%Z
  /\ backoff_delays five_failures_run.1.1 ≠ [10; 20; 40; 60; 60]%Z.
Proof.
  split; [vm_compute; reflexivity|]. split; [vm_compute; reflexivity|].
  split; [vm_compute; reflexivity|]. vm_compute. discriminate.
Qed.

Lemma backoff_then_fatal_exit_witness :
  main_loop toy_libs debian 5 (World ∅ false false ∅ false) 0 (quiet 130 ++ [])
  = ([OLoad LFalse; OBackoff 10 10; OLoad LFalse; OBackoff 20 20;
      OLoad LFalse; OBackoff 40 40; OLoad LFalse; OBackoff 60 60; OLoad LFalse],
     Done (Raise (SystemExit 1)), World ∅ false false ∅ false).
Proof.
  destruct (backoff_then_fatal_exit toy_libs debian) as (_ & _ & _ & H & _).
  apply (H 0%nat (World ∅ false false ∅ false) []); reflexivity.
Defined.

(** ** Shutdown during the retry wait *)

(** C5: in the Debian runner the retry wait is a loop of one-second sleeps
    that looks at [shutdown_event] before each.  When a signal arrives during
    the wait, after seconds in which nothing set the event, the wait ends
    with the second in which the signal arrived (so within one polling
    interval), the main loop starts the core no more, and [main] returns:
    exit status 0. *)
Theorem shutdown_interrupts_backoff (L : libs) (i : install) (fuel : nat)
    (w w1 : world) (cf : Z) (sch pre : schedule) (sec : list async) (rest : schedule) :
  shutdown_event w = false ->
  load_lightscope_core L i w sch = Some (LFalse, w1, pre ++ sec :: rest) ->
  shutdown_event w1 = false ->
  (cf + 1 < max_consecutive_failures)%Z ->
  forallb calm pre = true ->
  (length pre < Z.to_nat (sleep_time (cf + 1)))%nat ->
  In ASignal sec ->
  exists w',
    backoff_sleep i (Z.to_nat (sleep_time (cf + 1))) w1 (pre ++ sec :: rest)
      = Some (S (length pre), w', rest)
    /\ shutdown_event w' = true
    /\ main_loop L i (S (S fuel)) w cf sch
       = ([OLoad LFalse; OBackoff (sleep_time (cf + 1)) (S (length pre))],
          Done (Return tt), w')
    /\ exit_code (Return tt) = 0%Z.
Proof.
  intros Hw Hload Hw1 Hcf Hpre Hlen Hsig.
  destruct (backoff_sleep_interrupted i _ pre sec rest w1 Hw1 Hpre Hlen Hsig)
    as (w' & Hsleep & Hw').
  exists w'. split; [exact Hsleep|]. split; [exact Hw'|]. split; [|reflexivity].
  rewrite (main_loop_failure L i _ w w1 w' cf sch _ rest (S (length pre))) by done.
  by rewrite main_loop_shutdown.
Qed.

Lemma shutdown_interrupts_backoff_witness :
  exists w',
    main_loop toy_libs debian 2 (World ∅ false false ∅ false) 0 ([[]; []] ++ [ASignal] :: quiet 5)
    = ([OLoad LFalse; OBackoff 10 3], Done (Return tt), w').
Proof.
  destruct (shutdown_interrupts_backoff toy_libs debian 0 (World ∅ false false ∅ false)
              (World ∅ false false ∅ false) 0 ([[]; []] ++ [ASignal] :: quiet 5)
              [[]; []] [ASignal] (quiet 5))
    as (w' & _ & _ & H & _).
  - reflexivity.
  - reflexivity.
  - reflexivity.
  - reflexivity.
  - reflexivity.
  - vm_compute. lia.
  - left. reflexivity.
  - exists w'. exact H.
Defined.

(** ** A missing public key *)

Section KeyProperties.
Context (L : libs) (i : install).

Lemma new_updater_without_key (d : gmap string bytes) :
  d !! bundled_public_key_path i = None -> public_key (new_updater L i d) = None.
Proof.
  intros H. unfold new_updater, load_public_key, exists_file.
  rewrite bool_decide_eq_false_2; [reflexivity|]. rewrite H. by intros [? ?].
Qed.

Lemma check_for_updates_returns (u : SecureUpdater L) (response : outcome (option string)) :
  raises_only_exceptions response = true ->
  exists b : bool, check_for_updates L u response = Return b.
Proof.
  unfold check_for_updates. destruct response as [[v|]|e]; cbn.
  - intros _. destruct (bool_decide (v = "")); eauto.
  - eauto.
  - intros He. destruct (is_URLError e); [eauto|].
    destruct (is_JSONDecodeError e); [eauto|]. rewrite He. eauto.
Qed.

Lemma download_update_without_key (u : SecureUpdater L) (a : attempt)
    (d : gmap string bytes) :
  public_key u = None ->
  raises_only_exceptions (core_download a) = true ->
  raises_only_exceptions (sig_download a) = true ->
  download_update L i u a d = (Return false, u, d).
Proof.
  intros Hk Hc Hs. unfold download_update.
  destruct (core_download a) as [core|e]; cbn in Hc.
  2:{ cbn. by rewrite Hc. }
  destruct (sig_download a) as [sig|e]; cbn in Hs.
  2:{ cbn. by rewrite Hs. }
  by rewrite verify_signature_no_key.
Qed.

(** C6, as the code has it: when the public key file is absent at startup
    the process does not fail.  The updater holds no key, so every
    [verify_signature] returns False and every [download_update] returns False
    and leaves the files as they are (the update capability is off); and
    [main] goes on to start its threads and the supervision loop on the
    unchanged disk. *)
Theorem missing_key_disables_updates (d : gmap string bytes) :
  d !! bundled_public_key_path i = None ->
  public_key (new_updater L i d) = None
  /\ (forall fs file_path signature_path,
        verify_signature L (new_updater L i d) fs file_path signature_path = Return false)
  /\ (forall a d',
        raises_only_exceptions (core_download a) = true ->
        raises_only_exceptions (sig_download a) = true ->
        download_update L i (new_updater L i d) a d' = (Return false, new_updater L i d, d'))
  /\ (forall fuel s sch,
        ordinary_startup s = true ->
        exists t0,
          (t0 = [] \/ t0 = [OStartupUpdate false])
          /\ main L i fuel d s sch = run_supervision L i fuel t0 d sch).
Proof.
  intros Hd. pose proof (new_updater_without_key d Hd) as Hk.
  split; [exact Hk|]. split.
  { intros. by apply verify_signature_no_key. }
  split.
  { intros. by apply download_update_without_key. }
  intros fuel s sch Hs. unfold ordinary_startup in Hs.
  apply andb_true_iff in Hs as [Hs Hsig]. apply andb_true_iff in Hs as [Hv Hcore].
  unfold main, startup_update.
  destruct (check_for_updates_returns (new_updater L i d) _ Hv) as [[] ->].
  - rewrite download_update_without_key by done.
    exists [OStartupUpdate false]. split; [by right | reflexivity].
  - exists []. split; [by left | reflexivity].
Qed.

End KeyProperties.

(** The claim of C6 fails on the Debian runner: on a disk with the agent core
    and no public key the process starts the core, and exits with status 0
    when the core returns. *)
Lemma keyless_run_starts_the_core :
  core_only debian old_core !! bundled_public_key_path debian = None
  /\ loads keyless_run.1.1 = [LTrue]
  /\ keyless_run.1.2 = Done 0%Z
  /\ ~ refuses_to_start keyless_run.
Proof.
  split; [vm_compute; reflexivity|]. split; [vm_compute; reflexivity|].
  split; [vm_compute; reflexivity|].
  intros [_ H]. vm_compute in H. discriminate.
Qed.

Lemma missing_key_disables_updates_witness :
  core_only debian old_core !! bundled_public_key_path debian = None
  /\ public_key (new_updater toy_libs debian (core_only debian old_core)) = None.
Proof.
  assert (H : core_only debian old_core !! bundled_public_key_path debian = None)
    by (vm_compute; reflexivity).
  split; [exact H|].
  exact (proj1 (missing_key_disables_updates toy_libs debian (core_only debian old_core) H)).
Defined.

(** ** Restart on update *)

Section RestartProperties.
Context (L : libs) (i : install).

Lemma during_files_only (sec : list async) (w : world) :
  files_only sec = true ->
  shutdown_event (during i sec w) = shutdown_event w
  /\ update_available_event (during i sec w) = update_available_event w
  /\ core_alive (during i sec w) = core_alive w.
Proof.
  unfold during, files_only. revert w.
  induction sec as [|a sec IH]; intros w; cbn; [done|].
  intros [Ha Hsec]%andb_true_iff. destruct a; try discriminate.
  destruct (IH (happen i w (AFiles ops)) Hsec) as (-> & -> & ->). done.
Qed.

Lemma during_update_second (sec : list async) (w : world) :
  update_second sec = true ->
  shutdown_event (during i sec w) = shutdown_event w
  /\ update_available_event (during i sec w) = true
  /\ core_alive (during i sec w) = core_alive w.
Proof.
  unfold update_second. intros [Hall Hex]%andb_true_iff.
  assert (Hkeep : forall w,
    shutdown_event (during i sec w) = shutdown_event w
    /\ core_alive (during i sec w) = core_alive w).
  { clear Hex. unfold during. induction sec as [|a sec IH]; intros w'; cbn; [done|].
    cbn in Hall. apply andb_true_iff in Hall as [Ha Hsec].
    destruct (IH Hsec (happen i w' a)) as (-> & ->).
    destruct a; try discriminate; done. }
  destruct (Hkeep w) as (-> & ->). split; [done|]. split; [|done].
  clear Hall Hkeep. unfold during. revert w.
  induction sec as [|a sec IH]; intros w; cbn in *; [discriminate|].
  apply orb_true_iff in Hex as [Ha|Hsec]; [|by apply IH].
  destruct a; try discriminate.
  apply (during_update_mono i sec). reflexivity.
Qed.

Lemma monitor_poll (w w' : world) (sch : schedule) :
  poll w = Some w' -> monitor i w sch = Some (w', sch).
Proof. intros H. destruct sch; cbn; by rewrite H. Qed.

(** The update event is set while the core runs: the monitoring loop sets
    [shutdown_event] for the core to see and is left. *)
Lemma monitor_update_ready (pre : schedule) (sec : list async) (rest : schedule)
    (w : world) :
  core_alive w = true -> shutdown_event w = false ->
  update_available_event w = false ->
  forallb files_only pre = true -> update_second sec = true ->
  exists w2,
    monitor i w (pre ++ sec :: rest) = Some (w2, rest)
    /\ shutdown_event w2 = true /\ update_available_event w2 = true.
Proof.
  revert w. induction pre as [|s pre IH]; intros w Ha Hs Hu Hpre Hsec.
  - cbn [app monitor]. unfold poll at 1. rewrite Ha, Hs, Hu. cbn [negb].
    destruct (during_update_second sec w Hsec) as (Hs' & Hu' & Ha').
    rewrite (monitor_poll _ (set_shutdown true (during i sec w))).
    + eexists. split; [reflexivity|]. done.
    + unfold poll. by rewrite Ha', Ha, Hs', Hs, Hu'.
  - cbn in Hpre. apply andb_true_iff in Hpre as [Hf Hpre].
    cbn [app monitor]. unfold poll at 1. rewrite Ha, Hs, Hu. cbn [negb].
    destruct (during_files_only s w Hf) as (Hs' & Hu' & Ha').
    apply IH; congruence.
Qed.

Lemma join_enough (timeout : nat) (w : world) (sch : schedule) :
  (timeout ≤ length sch)%nat ->
  exists w' sch',
    join i timeout w sch = Some (w', sch')
    /\ (shutdown_event w = true -> shutdown_event w' = true)
    /\ (update_available_event w = true -> update_available_event w' = true).
Proof.
  revert w sch. induction timeout as [|t IH]; intros w sch Hlen.
  - exists w, sch. cbn. by destruct (core_alive w).
  - destruct sch as [|sec rest]; [cbn in Hlen; lia|].
    cbn [join]. destruct (core_alive w); cbn [negb].
    + destruct (IH (during i sec w) rest) as (w' & sch' & -> & Hs & Hu).
      { cbn in Hlen. lia. }
      exists w', sch'. split; [done|]. split; intros H.
      * apply Hs. by apply during_shutdown_mono.
      * apply Hu. by apply during_update_mono.
    + by exists w, (sec :: rest).
Qed.

(** The first start of the core in a process: the module is imported and
    the local name is bound. *)
Lemma load_first_import (w : world) (sch : schedule) (source : bytes) :
  disk w !! core_path i = Some source ->
  core_module_loads L source = true ->
  sys_modules w !! "lightscope_core" = None ->
  load_lightscope_core L i w sch
  = supervise_core i
      (set_modules (<["lightscope_core" := source]> (sys_modules w)) w) sch.
Proof.
  intros Hd Hl Hm. unfold load_lightscope_core, import_or_reload.
  rewrite (exists_file_true _ _ _ Hd). cbn [negb]. by rewrite Hd, Hm, Hl.
Qed.

(** A later start in the same process takes the reload branch, which binds
    nothing to the local name: the attribute assignments that follow raise
    UnboundLocalError and the call returns False. *)
Lemma load_after_import (w : world) (sch : schedule) (source loaded : bytes) :
  disk w !! core_path i = Some source ->
  sys_modules w !! "lightscope_core" = Some loaded ->
  exists w', load_lightscope_core L i w sch = Some (LFalse, w', sch).
Proof.
  intros Hd Hm. unfold load_lightscope_core, import_or_reload.
  rewrite (exists_file_true _ _ _ Hd). cbn [negb]. rewrite Hd, Hm.
  destruct (core_module_loads L source); cbn; eauto.
Qed.

(** C8, as the code has it: when the update checker sets
    [update_available_event] while the core runs (first start of the process,
    no signal), [load_lightscope_core] sets [shutdown_event] for the core,
    waits for it and returns "restart", once; the main loop then resets the
    failure counter, clears both events and runs its next turn from there. *)
Theorem update_ready_restarts_once (fuel : nat) (w : world) (cf : Z)
    (source : bytes) (pre : schedule) (sec : list async) (rest : schedule) :
  shutdown_event w = false ->
  update_available_event w = false ->
  disk w !! core_path i = Some source ->
  core_module_loads L source = true ->
  sys_modules w !! "lightscope_core" = None ->
  forallb files_only pre = true ->
  update_second sec = true ->
  (30 ≤ length rest)%nat ->
  exists w' sch',
    load_lightscope_core L i w (pre ++ sec :: rest) = Some (LRestart, w', sch')
    /\ shutdown_event w' = true
    /\ update_available_event w' = true
    /\ shutdown_event (set_shutdown false (set_update false w')) = false
    /\ update_available_event (set_shutdown false (set_update false w')) = false
    /\ main_loop L i (S fuel) w cf (pre ++ sec :: rest)
       = (OLoad LRestart
            :: (main_loop L i fuel (set_shutdown false (set_update false w')) 0 sch').1.1,
          (main_loop L i fuel (set_shutdown false (set_update false w')) 0 sch').1.2,
          (main_loop L i fuel (set_shutdown false (set_update false w')) 0 sch').2).
Proof.
  intros Hs Hu Hd Hl Hm Hpre Hsec Hlen.
  set (w0 := set_modules (<["lightscope_core" := source]> (sys_modules w)) w).
  destruct (monitor_update_ready pre sec rest (set_alive true w0))
    as (w2 & Hmon & Hs2 & Hu2); try done.
  destruct (join_enough 30 w2 rest Hlen) as (w' & sch' & Hjoin & Hs' & Hu').
  assert (Hload : load_lightscope_core L i w (pre ++ sec :: rest)
                  = Some (LRestart, w', sch')).
  { rewrite (load_first_import w _ source) by done.
    unfold supervise_core. fold w0. rewrite Hmon, Hjoin. by rewrite Hu'. }
  exists w', sch'. split; [exact Hload|]. split; [by apply Hs'|].
  split; [by apply Hu'|]. split; [reflexivity|]. split; [reflexivity|].
  cbn [main_loop]. rewrite Hs, Hload.
  by destruct (main_loop L i fuel (set_shutdown false (set_update false w')) 0 sch')
    as [[t e] wf].
Qed.

End RestartProperties.

(** The claim of C8 fails on the Debian runner: the loop also starts the core
    again after a failed start and its wait, with no update and without the
    process exiting. *)
Lemma failed_start_reenters_loop :
  loads retry_run.1.1 = [LFalse; LFalse]
  /\ backoff_delays retry_run.1.1 = [10; 20]%Z
  /\ retry_run.1.2 = Done 0%Z
  /\ reentered_after retry_run.1.1 = [LFalse]
  /\ ~ only_restart_reenters retry_run.1.1.
Proof.
  split; [vm_compute; reflexivity|]. split; [vm_compute; reflexivity|].
  split; [vm_compute; reflexivity|]. split; [vm_compute; reflexivity|].
  intros H. vm_compute in H. inversion H as [|? ? Hr _]. discriminate Hr.
Qed.

Lemma update_ready_restarts_once_witness :
  exists w' sch',
    load_lightscope_core toy_libs debian
      (World (core_only debian old_core) false false ∅ false)
      ([[]] ++ [AFiles []; AUpdateReady] :: quiet 30)
    = Some (LRestart, w', sch').
Proof.
  destruct (update_ready_restarts_once toy_libs debian 0
              (World (core_only debian old_core) false false ∅ false) 0
              old_core [[]] [AFiles []; AUpdateReady] (quiet 30))
    as (w' & sch' & H & _).
  - reflexivity.
  - reflexivity.
  - vm_compute. reflexivity.
  - reflexivity.
  - reflexivity.
  - reflexivity.
  - reflexivity.
  - vm_compute. lia.
  - exists w', sch'. exact H.
Defined.

(** ** The update checker *)

Section CheckerProperties.
Context (L : libs) (i : install).

Lemma at_most_one_update_cons (o : checker_obs) (t : list checker_obs) (e : thread_end) :
  is_install o = false -> o ≠ CkSignal ->
  at_most_one_update t e -> at_most_one_update (o :: t) e.
Proof.
  intros Ho Hne (Hle & Hlast). unfold at_most_one_update, installs in *.
  cbn [List.filter]. rewrite Ho. split; [exact Hle|].
  intros H. destruct Hlast as (-> & t0 & -> & Ht0 & Hsig).
  { destruct H as [[?|?]|?]; [congruence | by left | by right]. }
  split; [reflexivity|]. exists (o :: t0). split; [reflexivity|].
  split.
  - cbn [List.filter]. by rewrite Ho.
  - intros [?|?]; [congruence | done].
Qed.

Lemma at_most_one_update_quiet (e : thread_end) : at_most_one_update [] e.
Proof.
  split; [cbn; lia|]. intros [[]|H]. cbn in H. discriminate.
Qed.

Lemma at_most_one_update_install :
  at_most_one_update [CkCheck true; CkInstall true; CkSignal] ThreadExited.
Proof.
  split; [cbn; lia|]. intros _. split; [reflexivity|].
  exists []. split; [reflexivity|]. split; [reflexivity|]. by intros [].
Qed.

Lemma update_checker_loop_once (rounds : list (check_round L)) (u : SecureUpdater L)
    (d : gmap string bytes) (last_update_check : Z) :
  at_most_one_update (update_checker_loop L i rounds u d last_update_check).1.1.1
                     (update_checker_loop L i rounds u d last_update_check).1.1.2.
Proof.
  revert u d last_update_check.
  induction rounds as [|r rest IH]; intros u d last; cbn [update_checker_loop].
  { apply at_most_one_update_quiet. }
  destruct (shutdown_seen r); [apply at_most_one_update_quiet|].
  case_bool_decide.
  - destruct (check_for_updates L u (round_response r)) as [[]|e].
    + destruct (download_update L i u (round_attempt r) d) as [[[[]|e] u1] d1].
      * apply at_most_one_update_install.
      * specialize (IH u1 d1 (round_time r)).
        destruct (update_checker_loop L i rest u1 d1 (round_time r)) as [[[t e'] u'] d'].
        cbn in *. repeat (apply at_most_one_update_cons; [done | done |]). exact IH.
      * destruct (is_Exception e).
        -- specialize (IH u1 d1 last).
           destruct (update_checker_loop L i rest u1 d1 last) as [[[t e'] u'] d'].
           cbn in *. repeat (apply at_most_one_update_cons; [done | done |]). exact IH.
        -- cbn. apply at_most_one_update_cons; [done | done |].
           apply at_most_one_update_quiet.
    + specialize (IH u d (round_time r)).
      destruct (update_checker_loop L i rest u d (round_time r)) as [[[t e'] u'] d'].
      cbn in *. repeat (apply at_most_one_update_cons; [done | done |]). exact IH.
    + destruct (is_Exception e).
      * specialize (IH u d last).
        destruct (update_checker_loop L i rest u d last) as [[[t e'] u'] d'].
        cbn in *. apply at_most_one_update_cons; [done | done |]. exact IH.
      * apply at_most_one_update_quiet.
  - specialize (IH u d last).
    destruct (update_checker_loop L i rest u d last) as [[[t e'] u'] d'].
    cbn in *. apply at_most_one_update_cons; [done | done |]. exact IH.
Qed.

Lemma spawns_app (a b : list obs) : spawns (a ++ b) = spawns a ++ spawns b.
Proof. apply omap_app. Qed.

Lemma spawns_cons (o : obs) (t : list obs) :
  spawns (o :: t) = match o with OSpawn n => [n] | _ => [] end ++ spawns t.
Proof. by destruct o. Qed.

Lemma main_loop_spawns_nothing (fuel : nat) (w : world) (cf : Z) (sch : schedule) :
  spawns (main_loop L i fuel w cf sch).1.1 = [].
Proof.
  revert w cf sch. induction fuel as [|fuel IH]; intros w cf sch; cbn [main_loop];
    [reflexivity|].
  destruct (shutdown_event w); [reflexivity|].
  destruct (load_lightscope_core L i w sch) as [[[[] w1] sch1]|]; try reflexivity.
  - specialize (IH (set_shutdown false (set_update false w1)) 0%Z sch1).
    destruct (main_loop L i fuel _ 0%Z sch1) as [[t e] w']. exact IH.
  - case_bool_decide; [reflexivity|].
    destruct (backoff_sleep i _ w1 sch1) as [[[slept w2] sch2]|]; [|reflexivity].
    specialize (IH w2 (cf + 1)%Z sch2).
    destruct (main_loop L i fuel w2 (cf + 1)%Z sch2) as [[t e] w']. exact IH.
Qed.

Lemma main_spawns_once (fuel : nat) (d : gmap string bytes) (s : startup) (sch : schedule) :
  spawns (main L i fuel d s sch).1.1 = []
  \/ spawns (main L i fuel d s sch).1.1 = ["Update-Checker"; "Watchdog"].
Proof.
  unfold main.
  destruct (startup_update L i (new_updater L i d) s d) as [[[t0|e] u'] d'] eqn:Hst;
    [|by left].
  right. unfold run_supervision.
  pose proof (main_loop_spawns_nothing fuel (World d' false false ∅ false) 0%Z sch) as Hl.
  destruct (main_loop L i fuel (World d' false false ∅ false) 0%Z sch) as [[t e] w].
  cbn [fst snd] in Hl.
  assert (Ht0 : spawns t0 = []).
  { unfold startup_update in Hst.
    destruct (check_for_updates L (new_updater L i d) (version_response s)) as [[]|?];
      [|by inversion Hst|discriminate].
    destruct (download_update L i _ (startup_attempt s) d) as [[[ok|?] ?] ?];
      [by inversion Hst | discriminate]. }
  destruct e as [[?|?]| |]; cbn [fst snd];
    rewrite !spawns_app, (spawns_cons OReady), !spawns_app, Hl, Ht0; reflexivity.
Qed.

(** C9: in the Debian runner the update checker thread installs at most once:
    after a successful [download_update] it sets [update_available_event] and
    leaves its loop, so that install and signal are the last things the thread
    does before its function returns.  [main] starts the thread once, before
    its loop, and the loop (the restart after an update included) starts no
    thread: no update check follows the first background update. *)
Theorem update_checker_updates_at_most_once :
  (forall started rounds u d,
      at_most_one_update (update_checker_thread L i started rounds u d).1.1.1
                         (update_checker_thread L i started rounds u d).1.1.2)
  /\ (forall fuel w cf sch, spawns (main_loop L i fuel w cf sch).1.1 = [])
  /\ (forall fuel d s sch,
        spawns (main L i fuel d s sch).1.1 = []
        \/ spawns (main L i fuel d s sch).1.1 = ["Update-Checker"; "Watchdog"]).
Proof.
  split; [|split].
  - intros. apply update_checker_loop_once.
  - apply main_loop_spawns_nothing.
  - apply main_spawns_once.
Qed.

End CheckerProperties.

(** A run of the thread: a rejected download, then one install, after
    which the thread is over; the old core is in the backup. *)
Example update_checker_thread_run :
  (update_checker_thread toy_libs small_posix 1700000000 checker_rounds toy_updater
     (core_only small_posix old_core)).1.1
  = ([CkWait 60; CkCheck true; CkInstall false; CkWait 60; CkWait 60;
      CkCheck true; CkInstall true; CkSignal], ThreadExited)
  /\ (update_checker_thread toy_libs small_posix 1700000000 checker_rounds toy_updater
        (core_only small_posix old_core)).2 !! core_path small_posix = Some new_core
  /\ (update_checker_thread toy_libs small_posix 1700000000 checker_rounds toy_updater
        (core_only small_posix old_core)).2 !! backup_path small_posix 1700003700
     = Some old_core.
Proof. repeat split; vm_compute; reflexivity. Qed.

(** ** Signing tool and verifier agree on the scheme *)

Section SignThenVerify.
Context (L : libs) (i : install).
Variable keypair : privkey L -> pubkey L -> Prop.

(** What is asked of the library: a signature it makes with a private key
    is accepted under the matching public key with the same padding and
    digest. *)
Hypothesis library_round_trip :
  forall sk pk data salt pad h signature,
    keypair sk pk ->
    sk_sign L sk data salt pad h = Return signature ->
    pk_verify L pk signature data pad h = Return tt.

(** [sign_file] and [verify_signature] pass the same padding (PSS with MGF1
    over SHA-256 and the maximal salt length) and the same digest, so under
    such a library the signature file the tool writes for a payload is
    accepted by the runner that holds the matching public key. *)
Lemma sign_file_then_verify_signature (fs : gmap string bytes) (sk : privkey L)
    (pk : pubkey L) (salt : bytes) (version : option string)
    (file_path signature_path : string) (fs' : gmap string bytes) :
  keypair sk pk ->
  file_path ≠ signature_path ->
  sign_file L fs file_path sk salt signature_path = (true, fs') ->
  verify_signature L (Updater (Some pk) version) fs' file_path signature_path
  = Return true.
Proof.
  intros Hkp Hne. unfold sign_file, read_file.
  destruct (fs !! file_path) as [data|] eqn:Hf; [|cbn; discriminate].
  cbn. destruct (sk_sign L sk data salt pss_padding SHA256) as [signature|e] eqn:Hs.
  - cbn. intros [= <-]. unfold verify_signature, read_file. cbn.
    assert (Hx : <[signature_path := signature]> fs !! file_path = Some data).
    { rewrite <- Hf. apply lookup_insert_ne. congruence. }
    rewrite Hx, lookup_insert_eq. cbn.
    by rewrite (library_round_trip sk pk data salt _ _ signature Hkp Hs).
  - cbn. destruct (is_Exception e); discriminate.
Qed.

End SignThenVerify.

(** * Further properties *)

(** ** Paths, further *)

Lemma string_length_app (a b : string) :
  String.length (a +:+ b) = (String.length a + String.length b)%nat.
Proof.
  induction a as [|x a IH]; [reflexivity|].
  rewrite string_app_cons. cbn [String.length]. by rewrite IH.
Qed.

Lemma string_app_inj_r (a b c : string) : a +:+ c = b +:+ c -> a = b.
Proof.
  revert b. induction a as [|x a IH]; intros [|y b] H.
  - reflexivity.
  - apply (f_equal String.length) in H. rewrite !string_length_app in H.
    cbn [String.length] in H. lia.
  - apply (f_equal String.length) in H. rewrite !string_length_app in H.
    cbn [String.length] in H. lia.
  - rewrite !string_app_cons in H. injection H as -> H. f_equal. by apply IH.
Qed.

Lemma backup_path_inj (i : install) (t1 t2 : Z) :
  backup_path i t1 = backup_path i t2 -> t1 = t2.
Proof.
  unfold backup_path, path_join. intros H.
  apply (inj (String.app (UPDATES_DIR i))) in H.
  apply (inj (String.app "/")) in H.
  apply (inj (String.app "lightscope_core_backup_")) in H.
  apply string_app_inj_r in H. by apply (inj pretty) in H.
Qed.

Lemma key_path_not_core (i : install) : bundled_public_key_path i ≠ core_path i.
Proof.
  unfold bundled_public_key_path, core_path, BIN_DIR, CONFIG_DIR, path_join.
  destruct (bin_is_home i); rewrite ?string_app_assoc; intros H;
    apply (inj (String.app (LIGHTSCOPE_HOME i))) in H;
    rewrite ?string_app_cons in H; discriminate H.
Qed.

Lemma key_path_not_backup (i : install) (t : Z) :
  bundled_public_key_path i ≠ backup_path i t.
Proof.
  unfold bundled_public_key_path, backup_path, UPDATES_DIR, CONFIG_DIR, path_join.
  rewrite ?string_app_assoc. intros H.
  apply (inj (String.app (LIGHTSCOPE_HOME i))) in H.
  rewrite ?string_app_cons in H. discriminate H.
Qed.

(** ** The installer, further *)

Section InstallFurther.
Context (L : libs) (i : install).

Lemma exists_file_false (d : gmap string bytes) p :
  d !! p = None -> exists_file d p = false.
Proof.
  intros H. unfold exists_file. apply bool_decide_eq_false. rewrite H. by intros [? ?].
Qed.

Lemma run_ops_crash_state o ops (d : gmap string bytes) :
  (run_ops o ops d).1 = crash_state o ops (length ops) d.
Proof. unfold crash_state. by rewrite take_ge. Qed.

Lemma install_tail_setmeta :
  Forall (fun op => op = OpSetMeta (core_path i))
         match os i with Posix => [OpSetMeta (core_path i)] | Win => [] end.
Proof. destruct (os i); repeat constructor. Qed.

Lemma apply_rename_cases o src dst (d : gmap string bytes) (data : bytes) :
  d !! src = Some data ->
  apply_op o (OpRename src dst) d = None
  \/ apply_op o (OpRename src dst) d = Some (<[dst := data]> (delete src d)).
Proof.
  intros H. cbn [apply_op]. rewrite H. destruct o, (d !! dst); auto.
Qed.

(** The install run to its end. *)
Lemma run_install_ops_complete (t : Z) (new : bytes) (d d' : gmap string bytes) :
  run_ops (os i) (install_ops i t new d) d = (d', true) -> d' = installed i t new d.
Proof.
  intros Hrun.
  assert (Hd' : d' = crash_state (os i) (install_ops i t new d)
                       (length (install_ops i t new d)) d).
  { by rewrite <- run_ops_crash_state, Hrun. }
  unfold installed. revert Hrun Hd'. unfold install_ops.
  destruct (d !! core_path i) as [old|] eqn:Hold.
  - rewrite (exists_file_true _ _ _ Hold). cbn [app length].
    rewrite crash_state_cons. cbn [run_ops apply_op]. rewrite Hold.
    intros Hrun ->.
    destruct (os i) eqn:Hos.
    + pose proof (crash_during_copy i new (core_path i) [OpSetMeta (core_path i)]) as Hc.
      rewrite Hos in Hc. apply Hc; [repeat constructor | done].
    + destruct (d !! backup_path i t) as [b|] eqn:Hb; [discriminate Hrun|].
      pose proof (crash_during_copy i new (core_path i) []) as Hc.
      rewrite Hos in Hc. apply Hc; [constructor | done].
  - rewrite (exists_file_false _ _ Hold). cbn [app].
    intros _ ->.
    apply (crash_during_copy i new (core_path i)); [apply install_tail_setmeta | done].
Qed.

(** The install, interrupted anywhere, changes no path but the live one and
    the backup. *)
Lemma crash_state_install_frame (t : Z) (new : bytes) (d : gmap string bytes)
    (k : nat) (p : string) :
  p ≠ core_path i -> p ≠ backup_path i t ->
  crash_state (os i) (install_ops i t new d) k d !! p = d !! p.
Proof.
  intros Hc Hb. unfold install_ops.
  assert (Hcopy : forall d1 k1,
    crash_state (os i)
      (copy2_ops i new (core_path i)
         ++ match os i with Posix => [OpSetMeta (core_path i)] | Win => [] end) k1 d1 !! p
    = d1 !! p).
  { intros d1 k1.
    destruct (crash_during_copy i new (core_path i) _ k1 d1 install_tail_setmeta)
      as [[->|[n ->]] _]; [done|]. by rewrite lookup_insert_ne. }
  destruct (d !! core_path i) as [old|] eqn:Hold.
  - rewrite (exists_file_true _ _ _ Hold). cbn [app].
    destruct k as [|k]; [by rewrite crash_state_0|].
    rewrite crash_state_cons.
    destruct (apply_rename_cases (os i) (core_path i) (backup_path i t) d old Hold)
      as [-> | ->]; [done|].
    rewrite Hcopy. rewrite lookup_insert_ne by done. by rewrite lookup_delete_ne.
  - rewrite (exists_file_false _ _ Hold). cbn [app]. apply Hcopy.
Qed.

End InstallFurther.

Section InstallResults.
Context (L : libs) (i : install).

Lemma run_setmeta_ok o p (ms : list fs_op) (d : gmap string bytes) (x : bytes) :
  d !! p = Some x -> Forall (fun op => op = OpSetMeta p) ms -> run_ops o ms d = (d, true).
Proof.
  intros Hp Hms. induction Hms as [|op ms -> _ IH]; [reflexivity|].
  cbn [run_ops apply_op]. by rewrite Hp.
Qed.

Lemma run_copy2_ops (data : bytes) (p : string) (ms : list fs_op) (d : gmap string bytes) :
  Forall (fun op => op = OpSetMeta p) ms ->
  run_ops (os i) (copy2_ops i data p ++ ms) d = (<[p := data]> d, true).
Proof.
  intros Hms. unfold copy2_ops. rewrite <- app_comm_cons. cbn [run_ops apply_op].
  rewrite <- app_assoc, run_ops_app.
  rewrite (run_writes _ _ _ []) by apply lookup_insert_eq.
  cbn [app]. rewrite insert_insert_eq.
  rewrite read_chunks_concat by (done || lia).
  apply (run_setmeta_ok _ p _ _ data); [apply lookup_insert_eq|].
  constructor; [reflexivity | exact Hms].
Qed.

(** On POSIX no operation of the install can fail for a reason of its own. *)
Lemma run_install_ops_posix (t : Z) (new : bytes) (d : gmap string bytes) :
  os i = Posix ->
  run_ops (os i) (install_ops i t new d) d = (installed i t new d, true).
Proof.
  intros Hos. unfold install_ops, installed.
  destruct (d !! core_path i) as [old|] eqn:Hold.
  - rewrite (exists_file_true _ _ _ Hold). cbn [app run_ops apply_op].
    rewrite Hold, Hos. rewrite <- Hos at 1.
    rewrite run_copy2_ops; [reflexivity | repeat constructor].
  - rewrite (exists_file_false _ _ Hold). cbn [app]. rewrite Hos at 2.
    rewrite run_copy2_ops; [reflexivity | repeat constructor].
Qed.


(** X1: a call of [download_update] that returns True has downloaded both
    files, has left the downloaded artifact, whole, at the live path and the
    artifact that was there before at the backup path stamped with the time
    of the call, has kept the public key of the updater, and has set the
    current version to the version found in the new artifact (the old value
    stays when the pattern is not found in it). *)
Theorem download_update_installs (u u' : SecureUpdater L) (a : attempt)
    (d d' : gmap string bytes) :
  download_update L i u a d = (Return true, u', d') ->
  exists core sig,
    core_download a = Return core /\ sig_download a = Return sig
    /\ d' = installed i (now a) core d
    /\ d' !! core_path i = Some core
    /\ (forall old, d !! core_path i = Some old -> d' !! backup_path i (now a) = Some old)
    /\ public_key u' = public_key u
    /\ current_version u'
       = match search_ls_version L core with
         | Some v => Some v
         | None => current_version u
         end.
Proof.
  unfold download_update. intros Hrun.
  destruct (core_download a) as [core|e].
  2:{ cbn in Hrun. destruct (is_Exception e); discriminate. }
  destruct (sig_download a) as [sig|e].
  2:{ cbn in Hrun. destruct (is_Exception e); discriminate. }
  destruct (verify_signature L u (scratch core sig) _ _) as [[]|e].
  2:{ discriminate. }
  2:{ cbn in Hrun. destruct (is_Exception e); discriminate. }
  destruct (run_with_fault i (io_fault a) (install_ops i (now a) core d) d)
    as [d1 ok] eqn:Hops.
  destruct ok; [|discriminate]. injection Hrun as <- <-.
  assert (Hd1 : d1 = installed i (now a) core d).
  { unfold run_with_fault in Hops. destruct (io_fault a) as [k|].
    - case_bool_decide; [discriminate|]. by apply run_install_ops_complete.
    - by apply run_install_ops_complete. }
  assert (Hlive : d1 !! core_path i = Some core).
  { rewrite Hd1. apply lookup_insert_eq. }
  exists core, sig. split; [done|]. split; [done|]. split; [done|].
  split; [done|]. split.
  { intros old Hold. rewrite Hd1. unfold installed. rewrite Hold.
    rewrite lookup_insert_ne by apply core_path_not_backup.
    apply lookup_insert_eq. }
  unfold load_current_version. rewrite Hlive.
  destruct (search_ls_version L core); done.
Qed.

(** X2: whatever it meets (failed downloads, a rejected signature, an error
    of the operating system in the middle of the install) [download_update]
    changes no file but the live artifact and the backup stamped with the time
    of the call: the public key file and the backups taken at other times are
    as they were. *)
Theorem download_update_keeps_key_and_backups (u : SecureUpdater L) (a : attempt)
    (d : gmap string bytes) :
  (download_update L i u a d).2 !! bundled_public_key_path i
    = d !! bundled_public_key_path i
  /\ (forall t, t ≠ now a ->
        (download_update L i u a d).2 !! backup_path i t = d !! backup_path i t)
  /\ (forall p, p ≠ core_path i -> p ≠ backup_path i (now a) ->
        (download_update L i u a d).2 !! p = d !! p).
Proof.
  assert (Hframe : forall p, p ≠ core_path i -> p ≠ backup_path i (now a) ->
            (download_update L i u a d).2 !! p = d !! p).
  { intros p Hc Hb.
    destruct (download_update_leaves_crash_state L i u a d) as [->|(core & k & _ & ->)];
      [done|]. by apply crash_state_install_frame. }
  split; [|split; [|exact Hframe]].
  - apply Hframe; [apply key_path_not_core | apply key_path_not_backup].
  - intros t Ht. apply Hframe.
    + intros H. by apply (core_path_not_backup i t).
    + intros H. by apply backup_path_inj in H.
Qed.

(** X3: two installs within one second of the clock meet at the same backup
    path.  On Windows [Path.rename] refuses the existing target, so the second
    call returns False and leaves every file as it was; on POSIX the rename
    replaces the target, so the call succeeds and the earlier backup is
    overwritten by the artifact that was live. *)
Theorem backup_collision (u : SecureUpdater L) (a : attempt) (d : gmap string bytes)
    (core sig old earlier : bytes) :
  core_download a = Return core -> sig_download a = Return sig ->
  verify_signature L u (scratch core sig) "lightscope_core.py" "lightscope_core.py.sig"
    = Return true ->
  d !! core_path i = Some old ->
  d !! backup_path i (now a) = Some earlier ->
  match os i with
  | Win => download_update L i u a d = (Return false, u, d)
  | Posix =>
      io_fault a = None ->
      (download_update L i u a d).1.1 = Return true
      /\ (download_update L i u a d).2 !! backup_path i (now a) = Some old
      /\ (download_update L i u a d).2 !! core_path i = Some core
  end.
Proof.
  intros Hc Hs Hv Hold Hb. unfold download_update. rewrite Hc, Hs, Hv.
  destruct (os i) eqn:Hos.
  - intros Hf. rewrite Hf. unfold run_with_fault.
    rewrite run_install_ops_posix by done. cbn [fst snd]. split; [done|].
    unfold installed. rewrite Hold. split.
    + rewrite lookup_insert_ne by apply core_path_not_backup. apply lookup_insert_eq.
    + apply lookup_insert_eq.
  - assert (Hfail : forall k,
      run_ops Win (take k (install_ops i (now a) core d)) d = (d, k =? 0)%nat).
    { intros k. unfold install_ops. rewrite (exists_file_true _ _ _ Hold).
      cbn [app]. destruct k as [|k]; [reflexivity|].
      cbn [take run_ops apply_op]. by rewrite Hold, Hb. }
    unfold run_with_fault. rewrite Hos.
    assert (Hall : run_ops Win (install_ops i (now a) core d) d = (d, false)).
    { rewrite <- (take_ge (install_ops i (now a) core d)
                   (S (length (install_ops i (now a) core d)))) by lia.
      by rewrite Hfail. }
    destruct (io_fault a) as [k|].
    + case_bool_decide; [by rewrite Hfail | by rewrite Hall].
    + by rewrite Hall.
Qed.


End InstallResults.

Lemma download_update_installs_witness :
  installed small_posix 1700003700 new_core (core_only small_posix old_core)
    !! backup_path small_posix 1700003700 = Some old_core.
Proof.
  destruct (download_update_installs toy_libs small_posix toy_updater
              (@Updater toy_libs (Some toy_key) (Some "2.0.0")) good_attempt
              (core_only small_posix old_core)
              (installed small_posix 1700003700 new_core (core_only small_posix old_core)))
    as (core & sig & _ & _ & _ & _ & Hb & _).
  - vm_compute. reflexivity.
  - apply Hb. vm_compute. reflexivity.
Defined.

Lemma backup_collision_witness :
  download_update toy_libs small_windows toy_updater good_attempt
    (<[backup_path small_windows 1700003700 := [Byte.x00]]> (core_only small_windows old_core))
  = (Return false, toy_updater,
     <[backup_path small_windows 1700003700 := [Byte.x00]]> (core_only small_windows old_core)).
Proof.
  assert (H3 : verify_signature toy_libs toy_updater (scratch new_core (toy_key ++ new_core))
                 "lightscope_core.py" "lightscope_core.py.sig" = Return true)
    by (vm_compute; reflexivity).
  assert (H4 : (<[backup_path small_windows 1700003700 := [Byte.x00]]>
                  (core_only small_windows old_core) : gmap string bytes)
               !! core_path small_windows = Some old_core)
    by (vm_compute; reflexivity).
  assert (H5 : (<[backup_path small_windows 1700003700 := [Byte.x00]]>
                  (core_only small_windows old_core) : gmap string bytes)
               !! backup_path small_windows (now good_attempt) = Some [Byte.x00])
    by (vm_compute; reflexivity).
  exact (backup_collision toy_libs small_windows toy_updater good_attempt _
           new_core (toy_key ++ new_core) old_core [Byte.x00] eq_refl eq_refl H3 H4 H5).
Defined.


(** ** Checking for updates, further *)

Section CheckFurther.
Context (L : libs) (i : install).


Lemma verify_signature_ordinary (u : SecureUpdater L) fs file_path signature_path :
  ordinary_verify L ->
  exists b : bool, verify_signature L u fs file_path signature_path = Return b.
Proof.
  intros Hlib. unfold verify_signature, read_file.
  destruct (public_key u) as [pk|]; [|eauto].
  destruct (fs !! file_path) as [data|]; [|cbn; eauto].
  destruct (fs !! signature_path) as [signature|]; [|cbn; eauto].
  cbn. destruct (pk_verify L pk signature data pss_padding SHA256) as [[]|e] eqn:Hp;
    cbn; [eauto|].
  apply Hlib in Hp. destruct (is_InvalidSignature e); [eauto|]. rewrite Hp. eauto.
Qed.

Lemma download_update_ordinary (u : SecureUpdater L) (a : attempt) (d : gmap string bytes) :
  ordinary_verify L ->
  raises_only_exceptions (core_download a) = true ->
  raises_only_exceptions (sig_download a) = true ->
  exists b : bool, (download_update L i u a d).1.1 = Return b.
Proof.
  intros Hlib Hc Hs. unfold download_update.
  destruct (core_download a) as [core|e]; cbn in Hc.
  2:{ cbn. rewrite Hc. eauto. }
  destruct (sig_download a) as [sig|e]; cbn in Hs.
  2:{ cbn. rewrite Hs. eauto. }
  destruct (verify_signature_ordinary u (scratch core sig)
              "lightscope_core.py" "lightscope_core.py.sig" Hlib) as [[] ->].
  - destruct (run_with_fault i (io_fault a) _ d) as [d' []]; cbn; eauto.
  - cbn. eauto.
Qed.

(** X6: with a key file that is there but does not parse as a PEM public
    key the updater starts without a key, as with a missing file: nothing is
    raised, and from then on every [download_update] returns False and leaves
    the files as they are. *)
Theorem unparsable_key_disables_updates (d : gmap string bytes) (pem : bytes) (e : exn) :
  d !! bundled_public_key_path i = Some pem ->
  load_pem_public_key L pem = Raise e ->
  is_Exception e = true ->
  public_key (new_updater L i d) = None
  /\ current_version (new_updater L i d)
     = current_version (load_current_version L i d (Updater None None))
  /\ (forall a d',
        raises_only_exceptions (core_download a) = true ->
        raises_only_exceptions (sig_download a) = true ->
        download_update L i (new_updater L i d) a d'
        = (Return false, new_updater L i d, d')).
Proof.
  intros Hd Hpem He.
  assert (Hk : public_key (new_updater L i d) = None
               /\ current_version (new_updater L i d)
                  = current_version (load_current_version L i d (Updater None None))).
  { unfold new_updater, load_public_key, read_file.
    rewrite (exists_file_true _ _ _ Hd), Hd. cbn. rewrite Hpem. cbn. by rewrite He. }
  destruct Hk as [Hk Hv]. split; [exact Hk|]. split; [exact Hv|].
  intros. by apply download_update_without_key.
Qed.

(** X7: an update check or an install that fails never ends the update
    checker thread: when the network calls and the library's [verify] fail
    only by raising an [Exception], the thread function returns (shutdown was
    seen, or an update was installed) or is still in its loop; it is never
    ended by an exception. *)
Theorem update_checker_survives_failures (started : Z) (rounds : list (check_round L))
    (u : SecureUpdater L) (d : gmap string bytes) :
  ordinary_verify L ->
  forallb ordinary_round rounds = true ->
  (update_checker_thread L i started rounds u d).1.1.2 = ThreadExited
  \/ (update_checker_thread L i started rounds u d).1.1.2 = ThreadRunning.
Proof.
  intros Hlib. unfold update_checker_thread. revert u d started.
  induction rounds as [|r rest IH]; intros u d last Hr; cbn [update_checker_loop].
  { by right. }
  cbn in Hr. apply andb_true_iff in Hr as [Hr Hrest].
  unfold ordinary_round in Hr.
  apply andb_true_iff in Hr as [Hr Hsig]. apply andb_true_iff in Hr as [Hv Hcore].
  destruct (shutdown_seen r); [by left|].
  case_bool_decide.
  - destruct (check_for_updates_returns L u _ Hv) as [[] ->].
    + destruct (download_update_ordinary u (round_attempt r) d Hlib Hcore Hsig) as [b Hb].
      destruct (download_update L i u (round_attempt r) d) as [[o u1] d1].
      cbn in Hb. subst o. destruct b; [by left|].
      specialize (IH u1 d1 (round_time r) Hrest).
      by destruct (update_checker_loop L i rest u1 d1 (round_time r)) as [[[t e'] u'] d'].
    + specialize (IH u d (round_time r) Hrest).
      by destruct (update_checker_loop L i rest u d (round_time r)) as [[[t e'] u'] d'].
  - specialize (IH u d last Hrest).
    by destruct (update_checker_loop L i rest u d last) as [[[t e'] u'] d'].
Qed.


End CheckFurther.

Lemma toy_libs_ordinary : ordinary_verify toy_libs.
Proof.
  intros pk signature data e. cbn. unfold toy_verify.
  destruct (bool_decide (signature = pk ++ data)); [discriminate|].
  intros [= <-]. reflexivity.
Qed.

Lemma unparsable_key_disables_updates_witness :
  public_key (new_updater picky_libs debian empty_key_disk) = None.
Proof.
  apply (unparsable_key_disables_updates picky_libs debian empty_key_disk [] ValueError).
  - vm_compute. reflexivity.
  - reflexivity.
  - reflexivity.
Defined.

Lemma update_checker_survives_failures_witness :
  (update_checker_thread toy_libs small_posix 1700000000 checker_rounds toy_updater
     (core_only small_posix old_core)).1.1.2 = ThreadExited
  \/ (update_checker_thread toy_libs small_posix 1700000000 checker_rounds toy_updater
        (core_only small_posix old_core)).1.1.2 = ThreadRunning.
Proof.
  apply (update_checker_survives_failures toy_libs small_posix 1700000000 checker_rounds
           toy_updater (core_only small_posix old_core) toy_libs_ordinary).
  reflexivity.
Defined.


(** ** Supervision, further *)

Section SupervisionFurther.
Context (L : libs) (i : install).

Lemma sleep_time_bounds (c : Z) : (1 <= c)%Z -> (10 <= sleep_time c <= 60)%Z.
Proof.
  intros Hc. unfold sleep_time.
  assert (0 < 2 ^ (c - 1))%Z by (apply Z.pow_pos_nonneg; lia). lia.
Qed.

Lemma backoff_sleep_le (n : nat) (w w' : world) (sch sch' : schedule) (slept : nat) :
  backoff_sleep i n w sch = Some (slept, w', sch') -> (slept ≤ n)%nat.
Proof.
  revert w w' sch sch' slept.
  induction n as [|n IH]; intros w w' sch sch' slept; cbn [backoff_sleep].
  - intros [= <- _ _]. lia.
  - destruct (shutdown_event w); [intros [= <- _ _]; lia|].
    destruct sch as [|sec rest]; [discriminate|].
    destruct (backoff_sleep i n (during i sec w) rest) as [[[k w1] s1]|] eqn:Hrec;
      [|discriminate].
    intros [= <- _ _]. apply IH in Hrec. lia.
Qed.

Lemma loads_cons (o : obs) (t : list obs) :
  loads (o :: t) = match o with OLoad r => [r] | _ => [] end ++ loads t.
Proof. by destruct o. Qed.

(** X10: in every run of the main loop of the Debian runner, under any
    schedule, each retry wait is planned for between 10 and 60 seconds and
    sleeps no longer than planned; the loop raises nothing but SystemExit(1),
    and it does so only when the last five calls of [load_lightscope_core]
    (five less the failures already counted, when no restart came between)
    all returned False. *)
Theorem main_loop_waits_and_exits (fuel : nat) (w : world) (cf : Z) (sch : schedule) :
  (0 <= cf <= 4)%Z ->
  Forall wait_in_bounds (main_loop L i fuel w cf sch).1.1
  /\ (forall x,
        (main_loop L i fuel w cf sch).1.2 = Done (Raise x) ->
        x = SystemExit 1
        /\ (loads (main_loop L i fuel w cf sch).1.1 = replicate (Z.to_nat (5 - cf)) LFalse
            \/ exists t0,
                 loads (main_loop L i fuel w cf sch).1.1 = t0 ++ replicate 5 LFalse)).
Proof.
  revert w cf sch. induction fuel as [|fuel IH]; intros w cf sch Hcf; cbn [main_loop].
  { split; [constructor | discriminate]. }
  destruct (shutdown_event w); [split; [constructor | discriminate]|].
  destruct (load_lightscope_core L i w sch) as [[[[] w1] sch1]|];
    [| |  | split; [constructor | discriminate]].
  - specialize (IH (set_shutdown false (set_update false w1)) 0%Z sch1 ltac:(lia)).
    destruct (main_loop L i fuel _ 0%Z sch1) as [[t e] w']. cbn [fst snd] in *.
    destruct IH as [Hw Hx]. split; [constructor; [exact I | exact Hw]|].
    intros x Hex. destruct (Hx x Hex) as [-> [Hl|[t0 Hl]]]; (split; [reflexivity|]);
      right; rewrite loads_cons, Hl.
    + by exists [LRestart].
    + by exists (LRestart :: t0).
  - split; [repeat constructor | discriminate].
  - case_bool_decide as Hmax.
    + split; [repeat constructor|]. intros x [= <-]. split; [reflexivity|]. left.
      unfold max_consecutive_failures in Hmax.
      replace cf with 4%Z by lia. reflexivity.
    + unfold max_consecutive_failures in Hmax.
      destruct (backoff_sleep i _ w1 sch1) as [[[slept w2] sch2]|] eqn:Hsleep;
        [|split; [repeat constructor | discriminate]].
      specialize (IH w2 (cf + 1)%Z sch2 ltac:(lia)).
      destruct (main_loop L i fuel w2 (cf + 1)%Z sch2) as [[t e] w']. cbn [fst snd] in *.
      destruct IH as [Hw Hx]. split.
      * constructor; [exact I|]. constructor; [|exact Hw]. split.
        -- apply sleep_time_bounds. lia.
        -- by apply backoff_sleep_le in Hsleep.
      * intros x Hex. destruct (Hx x Hex) as [-> [Hl|[t0 Hl]]]; (split; [reflexivity|]);
          rewrite loads_cons; cbn [app]; rewrite loads_cons; cbn [app]; rewrite Hl.
        -- left. replace (Z.to_nat (5 - cf)) with (S (Z.to_nat (5 - (cf + 1)))) by lia.
           reflexivity.
        -- right. by exists (LFalse :: t0).
Qed.

(** The reload branch keeps the module in [sys.modules] and the files as
    they are. *)
Lemma load_after_import_world (w : world) (sch : schedule) (source loaded : bytes) :
  disk w !! core_path i = Some source ->
  sys_modules w !! "lightscope_core" = Some loaded ->
  exists w',
    load_lightscope_core L i w sch = Some (LFalse, w', sch)
    /\ disk w' = disk w /\ shutdown_event w' = shutdown_event w
    /\ core_alive w' = core_alive w
    /\ is_Some (sys_modules w' !! "lightscope_core").
Proof.
  intros Hd Hm. unfold load_lightscope_core, import_or_reload.
  rewrite (exists_file_true _ _ _ Hd). cbn [negb]. rewrite Hd, Hm.
  destruct (core_module_loads L source); cbn.
  - eexists. split; [reflexivity|]. cbn. rewrite lookup_insert_eq. eauto.
  - eexists. split; [reflexivity|]. cbn. rewrite Hm. eauto.
Qed.

(** Five failed starts in a row under a quiet schedule, for any condition on
    the world that makes a start fail and that a failed start keeps. *)
Lemma main_loop_all_fail (P : world -> Prop) (fuel : nat) (rest : schedule) :
  (forall w, P w -> shutdown_event w = false) ->
  (forall w sch, P w -> exists w', load_lightscope_core L i w sch = Some (LFalse, w', sch)
                                   /\ P w') ->
  forall w, P w ->
  exists w',
    main_loop L i (5 + fuel) w 0 (quiet 130 ++ rest)
    = ([OLoad LFalse; OBackoff 10 10; OLoad LFalse; OBackoff 20 20;
        OLoad LFalse; OBackoff 40 40; OLoad LFalse; OBackoff 60 60; OLoad LFalse],
       Done (Raise (SystemExit 1)), w')
    /\ P w'.
Proof.
  intros Hsh Hfail w0 H0.
  change (quiet 130) with (quiet 10 ++ quiet 20 ++ quiet 40 ++ quiet 60).
  rewrite <- !app_assoc.
  change (5 + fuel)%nat with (S (S (S (S (S fuel))))).
  destruct (Hfail w0 (quiet 10 ++ quiet 20 ++ quiet 40 ++ quiet 60 ++ rest) H0)
    as (w1 & Hl1 & H1).
  erewrite (main_loop_failure L i _ w0 w1 w1 0 _ _ _ 10 (Hsh _ H0) Hl1);
    [| done | apply (backoff_sleep_quiet i 10); by apply Hsh].
  destruct (Hfail w1 (quiet 20 ++ quiet 40 ++ quiet 60 ++ rest) H1) as (w2 & Hl2 & H2).
  erewrite (main_loop_failure L i _ w1 w2 w2 (0 + 1) _ _ _ 20 (Hsh _ H1) Hl2);
    [| done | apply (backoff_sleep_quiet i 20); by apply Hsh].
  destruct (Hfail w2 (quiet 40 ++ quiet 60 ++ rest) H2) as (w3 & Hl3 & H3).
  erewrite (main_loop_failure L i _ w2 w3 w3 (0 + 1 + 1) _ _ _ 40 (Hsh _ H2) Hl3);
    [| done | apply (backoff_sleep_quiet i 40); by apply Hsh].
  destruct (Hfail w3 (quiet 60 ++ rest) H3) as (w4 & Hl4 & H4).
  erewrite (main_loop_failure L i _ w3 w4 w4 (0 + 1 + 1 + 1) _ _ _ 60 (Hsh _ H3) Hl4);
    [| done | apply (backoff_sleep_quiet i 60); by apply Hsh].
  destruct (Hfail w4 rest H4) as (w5 & Hl5 & H5).
  erewrite (main_loop_last_failure L i _ w4 w5 (0 + 1 + 1 + 1 + 1) _ rest (Hsh _ H4) Hl5)
    by done.
  exists w5. split; [reflexivity | exact H5].
Qed.

(** X9: once the Debian runner has imported the core module, no later call
    of [load_lightscope_core] in the same process starts the core: the reload
    branch leaves the local name unbound, the call returns False, and with the
    core file in place and no signal the runner fails five times, waits 10,
    20, 40 and 60 seconds between the calls and exits with status 1.  This is
    the state the loop is in after a restart for an update. *)
Theorem imported_core_is_never_started_again (fuel : nat) (w : world)
    (source loaded : bytes) (rest : schedule) :
  shutdown_event w = false ->
  disk w !! core_path i = Some source ->
  sys_modules w !! "lightscope_core" = Some loaded ->
  (forall sch, exists w', load_lightscope_core L i w sch = Some (LFalse, w', sch)
                          /\ core_alive w' = core_alive w)
  /\ exists w',
       main_loop L i (5 + fuel) w 0 (quiet 130 ++ rest)
       = ([OLoad LFalse; OBackoff 10 10; OLoad LFalse; OBackoff 20 20;
           OLoad LFalse; OBackoff 40 40; OLoad LFalse; OBackoff 60 60; OLoad LFalse],
          Done (Raise (SystemExit 1)), w')
       /\ core_alive w' = core_alive w
       /\ exit_code (Raise (SystemExit 1)) = 1%Z.
Proof.
  intros Hs Hd Hm. split.
  { intros sch. destruct (load_after_import_world w sch source loaded Hd Hm)
      as (w' & Hl & _ & _ & Ha & _). eauto. }
  destruct (main_loop_all_fail
              (fun w' => shutdown_event w' = false
                         /\ disk w' !! core_path i = Some source
                         /\ is_Some (sys_modules w' !! "lightscope_core")
                         /\ core_alive w' = core_alive w) fuel rest) with (w := w)
    as (w' & Hrun & _ & _ & _ & Ha).
  - by intros ? [? _].
  - intros w1 sch (Hs1 & Hd1 & [l1 Hm1] & Ha1).
    destruct (load_after_import_world w1 sch source l1 Hd1 Hm1)
      as (w2 & Hl & Hd2 & Hs2 & Ha2 & Hm2).
    exists w2. split; [exact Hl|]. rewrite Hd2, Hs2, Ha2. done.
  - rewrite Hm. eauto.
  - exists w'. done.
Qed.

End SupervisionFurther.

Lemma main_loop_waits_and_exits_witness :
  Forall wait_in_bounds
    (main_loop toy_libs debian 10 (World ∅ false false ∅ false) 0 (quiet 200)).1.1.
Proof.
  apply (main_loop_waits_and_exits toy_libs debian 10 (World ∅ false false ∅ false) 0
           (quiet 200)).
  lia.
Defined.

Lemma imported_core_is_never_started_again_witness :
  exists w',
    main_loop toy_libs debian 5 (world_after_import (core_only debian new_core) old_core) 0
      (quiet 130 ++ [])
    = ([OLoad LFalse; OBackoff 10 10; OLoad LFalse; OBackoff 20 20;
        OLoad LFalse; OBackoff 40 40; OLoad LFalse; OBackoff 60 60; OLoad LFalse],
       Done (Raise (SystemExit 1)), w').
Proof.
  destruct (imported_core_is_never_started_again toy_libs debian 0
              (world_after_import (core_only debian new_core) old_core)
              new_core old_core [])
    as (_ & w' & H & _).
  - reflexivity.
  - vm_compute. reflexivity.
  - vm_compute. reflexivity.
  - exists w'. exact H.
Defined.

(** ** The watchdog thread *)

(** X11: a notification to systemd that fails never ends the watchdog
    thread and never holds up the next one: when [notify] fails only by
    raising an [Exception], the thread tries one notification in every turn
    of its loop until it sees shutdown (none when the systemd module is not
    available), waits 15 seconds after each, and ends only by returning once
    shutdown is seen. *)
Theorem watchdog_survives_failed_notifications (available : bool)
    (rounds : list watchdog_round) :
  forallb (fun r => raises_only_exceptions (wd_notify r)) rounds = true ->
  heartbeats (watchdog_thread available rounds).1
    = (if available then turns_before_shutdown rounds else 0%nat)
  /\ length (List.filter (fun o => match o with WdWait 15 => true | _ => false end)
               (watchdog_thread available rounds).1)
     = turns_before_shutdown rounds
  /\ ((watchdog_thread available rounds).2 = ThreadExited
      <-> existsb wd_shutdown_seen rounds = true)
  /\ ((watchdog_thread available rounds).2 = ThreadRunning
      <-> existsb wd_shutdown_seen rounds = false).
Proof.
  induction rounds as [|r rest IH]; intros Hr; cbn [watchdog_thread].
  { cbn. destruct available; repeat split; done. }
  cbn in Hr. apply andb_true_iff in Hr as [Hn Hrest]. specialize (IH Hrest).
  cbn [turns_before_shutdown existsb]. destruct (wd_shutdown_seen r); cbn [orb].
  { cbn. destruct available; repeat split; done. }
  destruct (watchdog_thread available rest) as [t' e] eqn:Hrec. cbn [fst snd] in IH.
  destruct IH as (Hh & Hw & He & Hrun).
  unfold notify_systemd_watchdog. destruct available.
  - destruct (wd_notify r) as [[]|x]; cbn in Hn |- *.
    + unfold heartbeats in *. cbn. rewrite Hh, Hw. done.
    + rewrite Hn. cbn. unfold heartbeats in *. cbn. rewrite Hh, Hw. done.
  - cbn. unfold heartbeats in *. cbn. rewrite Hh, Hw. done.
Qed.

Lemma watchdog_survives_failed_notifications_witness :
  heartbeats (watchdog_thread true
                [WdRound false (Return tt); WdRound false (Raise OSError);
                 WdRound false (Return tt); WdRound true (Return tt)]).1 = 3%nat.
Proof.
  apply (watchdog_survives_failed_notifications true
           [WdRound false (Return tt); WdRound false (Raise OSError);
            WdRound false (Return tt); WdRound true (Return tt)]).
  reflexivity.
Defined.

(** ** Module load, further *)

(** X12: the Windows service script cannot be loaded.  Whether or not a
    virtual environment is found, each branch of lines 39-52 calls a method of
    [logger], which line 73 binds: with pywin32 installed the module body
    raises NameError on every host, and without it ImportError; [main] is
    never entered. *)
Theorem service_module_load_always_raises (h : WindowsService.host) :
  WindowsService.run_script h
  = DebianModule.CrashedAtLoad
      (if WindowsService.pywin32_importable h then NameError else ImportError)
  /\ (WindowsService.module_body h ∅).2 !! "logger" = None.
Proof.
  destruct h as [[] sd sp [] [] [] []]; split; vm_compute; reflexivity.
Qed.

(** X13: the Debian runner reaches [main] exactly on a host where
    systemd can be imported and the log file can be opened; the file logging
    is set up while the module loads, before [ensure_directories] of [main]
    could create the logs directory, so a log file that cannot be opened ends
    the script with OSError.  When [main] is reached the logger and the two
    events, both clear, are bound. *)
Theorem debian_module_load_outcomes (h : DebianModule.host) :
  match DebianModule.run_script h with
  | DebianModule.EntersMain g =>
      DebianModule.systemd_importable h = true
      /\ DebianModule.log_file_openable h = true
      /\ g !! "logger" = Some (DebianModule.VLogger "lightscope-runner")
      /\ g !! "shutdown_event" = Some (DebianModule.VEvent false)
      /\ g !! "update_available_event" = Some (DebianModule.VEvent false)
  | DebianModule.CrashedAtLoad e =>
      (DebianModule.systemd_importable h = false /\ e = NameError)
      \/ (DebianModule.systemd_importable h = true
          /\ DebianModule.log_file_openable h = false /\ e = OSError)
  end.
Proof.
  destruct h as [[] []].
  - vm_compute. repeat split.
  - vm_compute. right. repeat split.
  - vm_compute. left. repeat split.
  - vm_compute. left. repeat split.
Qed.

(** ** The Windows service loop *)

Section ServiceProperties.
Context (L : libs) (i : install).

Lemma SvcDoRun_exit (sd : gmap string bytes) (code cf : Z)
    (more : list WindowsService.svc_round) :
  existsb (exists_file sd) (WindowsService.possible_runner_paths i) = true ->
  WindowsService.SvcDoRun i (runner_exits sd code :: more) cf
  = if bool_decide (code = 0%Z) then
      ([WindowsService.SvcLaunch; WindowsService.SvcExit code], Done (Return tt))
    else if bool_decide (WindowsService.max_consecutive_failures <= cf + 1)%Z then
      ([WindowsService.SvcLaunch; WindowsService.SvcExit code], Done (Return tt))
    else
      (WindowsService.SvcLaunch :: WindowsService.SvcExit code
         :: WindowsService.SvcWait (sleep_time (cf + 1)) false
         :: (WindowsService.SvcDoRun i more (cf + 1)).1,
       (WindowsService.SvcDoRun i more (cf + 1)).2).
Proof.
  intros Hs. cbn [WindowsService.SvcDoRun runner_exits WindowsService.sr_alive
                  WindowsService.sr_disk WindowsService.sr_popen WindowsService.sr_exit
                  WindowsService.sr_stop_in_wait negb].
  rewrite Hs. cbn [negb].
  case_bool_decide; [done|]. case_bool_decide; [done|].
  by destruct (WindowsService.SvcDoRun i more (cf + 1)) as [t e].
Qed.

(** X14: when the periodic check of the Windows runner installs an update,
    the runner leaves by [sys.exit(0)] without starting the core; the service
    takes exit code 0 of the runner for a normal end and leaves its loop: the
    runner is not started again, whatever turns would follow. *)
Theorem update_exit_ends_service (u : SecureUpdater L) (d : gmap string bytes)
    (r : win_round) (rest : list win_round) (last cf : Z)
    (sd : gmap string bytes) (more : list WindowsService.svc_round) (scf : Z) :
  (wr_time r - last > win_update_interval)%Z ->
  check_for_updates L u (wr_response r) = Return true ->
  (download_update L i u (wr_attempt r) d).1.1 = Return true ->
  existsb (exists_file sd) (WindowsService.possible_runner_paths i) = true ->
  (win_main_loop L i (r :: rest) u d last cf).1
  = ([], Done (Raise (SystemExit 0)))
  /\ WindowsService.SvcDoRun i (runner_exits sd (exit_code (Raise (SystemExit 0))) :: more) scf
     = ([WindowsService.SvcLaunch; WindowsService.SvcExit 0], Done (Return tt)).
Proof.
  intros Ht Hc Hd Hs. split.
  - cbn [win_main_loop]. rewrite bool_decide_eq_true_2 by done.
    unfold win_periodic_update. rewrite Hc.
    destruct (download_update L i u (wr_attempt r) d) as [[o u1] d1].
    cbn in Hd. subst o. reflexivity.
  - by rewrite SvcDoRun_exit.
Qed.

(** X15: the retry policy of the service.  A runner that exits with a
    non-zero code is started again after min(10 * 2^(n-1), 60) seconds; the
    third consecutive failure ends the loop with no further start; and a stop
    of the service during a retry wait ends the loop at once. *)
Theorem service_retry_policy (sd : gmap string bytes) (c1 c2 c3 : Z)
    (more : list WindowsService.svc_round) :
  existsb (exists_file sd) (WindowsService.possible_runner_paths i) = true ->
  c1 ≠ 0%Z -> c2 ≠ 0%Z -> c3 ≠ 0%Z ->
  WindowsService.SvcDoRun i
    (runner_exits sd c1 :: runner_exits sd c2 :: runner_exits sd c3 :: more) 0
  = ([WindowsService.SvcLaunch; WindowsService.SvcExit c1; WindowsService.SvcWait 10 false;
      WindowsService.SvcLaunch; WindowsService.SvcExit c2; WindowsService.SvcWait 20 false;
      WindowsService.SvcLaunch; WindowsService.SvcExit c3], Done (Return tt))
  /\ WindowsService.SvcDoRun i
       (WindowsService.SvcRound true sd (Return tt) (Some c1) true :: more) 0
     = ([WindowsService.SvcLaunch; WindowsService.SvcExit c1; WindowsService.SvcWait 10 true],
        Done (Return tt)).
Proof.
  intros Hs H1 H2 H3. split.
  - rewrite !SvcDoRun_exit by done.
    rewrite !(bool_decide_eq_false_2 (_ = 0%Z)) by done. reflexivity.
  - cbn [WindowsService.SvcDoRun WindowsService.sr_alive WindowsService.sr_disk
         WindowsService.sr_popen WindowsService.sr_exit WindowsService.sr_stop_in_wait negb].
    rewrite Hs. cbn [negb]. by rewrite bool_decide_eq_false_2 by done.
Qed.

(** X16: a missing runner script is not counted as a failure: as long as
    the service is alive and finds no script it waits 30 seconds and looks
    again, turn after turn, without starting anything and without ever
    giving up. *)
Theorem service_waits_for_missing_script (rounds : list WindowsService.svc_round) (cf : Z) :
  forallb (WindowsService.script_missing i) rounds = true ->
  WindowsService.SvcDoRun i rounds cf
  = (flat_map (fun _ => [WindowsService.SvcMissing; WindowsService.SvcWait 30 false]) rounds,
     Blocked)
  /\ WindowsService.launches (WindowsService.SvcDoRun i rounds cf).1 = 0%nat.
Proof.
  intros Hr.
  assert (Hrun : WindowsService.SvcDoRun i rounds cf
    = (flat_map (fun _ => [WindowsService.SvcMissing; WindowsService.SvcWait 30 false])
         rounds, Blocked)).
  { induction rounds as [|r rest IH]; [reflexivity|].
    cbn in Hr. apply andb_true_iff in Hr as [Hm Hrest].
    unfold WindowsService.script_missing in Hm.
    apply andb_true_iff in Hm as [Ha Hm].
    cbn [WindowsService.SvcDoRun flat_map]. rewrite Ha, Hm. cbn [negb].
    by rewrite (IH Hrest). }
  split; [exact Hrun|]. rewrite Hrun. cbn [fst].
  clear. induction rounds as [|r rest IH]; [reflexivity|]. exact IH.
Qed.

End ServiceProperties.

Lemma update_exit_ends_service_witness :
  (win_main_loop toy_libs small_windows
     [WinRound 1700090000 (Return (Some "2.0.0")) good_attempt RunReturns false]
     toy_updater (core_only small_windows old_core) 1700000000 0).1
  = ([], Done (Raise (SystemExit 0))).
Proof.
  apply (update_exit_ends_service toy_libs small_windows toy_updater
           (core_only small_windows old_core)
           (WinRound 1700090000 (Return (Some "2.0.0")) good_attempt RunReturns false)
           [] 1700000000 0
           {[path_join (BIN_DIR small_windows) "lightscope-runner-windows.py" := []]}
           [] 0).
  - reflexivity.
  - vm_compute. reflexivity.
  - vm_compute. reflexivity.
  - vm_compute. reflexivity.
Defined.

Lemma service_retry_policy_witness :
  WindowsService.SvcDoRun small_windows
    (WindowsService.SvcRound true
       {[path_join (BIN_DIR small_windows) "lightscope-runner-windows.py" := []]}
       (Return tt) (Some 1%Z) true :: []) 0
  = ([WindowsService.SvcLaunch; WindowsService.SvcExit 1; WindowsService.SvcWait 10 true],
     Done (Return tt)).
Proof.
  apply (service_retry_policy small_windows
           {[path_join (BIN_DIR small_windows) "lightscope-runner-windows.py" := []]}
           1 1 1 []).
  - vm_compute. reflexivity.
  - discriminate.
  - discriminate.
  - discriminate.
Defined.

Lemma service_waits_for_missing_script_witness :
  WindowsService.launches
    (WindowsService.SvcDoRun small_windows
       [WindowsService.SvcRound true ∅ (Return tt) None false;
        WindowsService.SvcRound true ∅ (Return tt) None false] 2).1 = 0%nat.
Proof.
  apply (service_waits_for_missing_script small_windows
           [WindowsService.SvcRound true ∅ (Return tt) None false;
            WindowsService.SvcRound true ∅ (Return tt) None false] 2).
  vm_compute. reflexivity.
Defined.

(** ** The signing tool, further *)

Section ToolProperties.
Context (L : libs) (i : install).

Lemma foldl_app_concat (acc : bytes) (blocks : list bytes) :
  foldl (fun h b => h ++ b) acc blocks = acc ++ concat blocks.
Proof.
  revert acc. induction blocks as [|b blocks IH]; intros acc; cbn.
  - by rewrite app_nil_r.
  - by rewrite IH, app_assoc.
Qed.

(** X17: [get_file_hash] reads a file in blocks of 4096 bytes and feeds
    them to one hash object; whatever the length of the file (empty, shorter
    than a block, not a multiple of 4096) the digest it returns is the digest
    of the whole content, each byte fed once and in order.  A file that is
    not there raises. *)
Theorem get_file_hash_whole_file (sha256_hexdigest : bytes -> string)
    (fs : gmap string bytes) (file_path : string) :
  (forall data, fs !! file_path = Some data ->
     get_file_hash sha256_hexdigest fs file_path = Return (sha256_hexdigest data))
  /\ (fs !! file_path = None ->
      get_file_hash sha256_hexdigest fs file_path = Raise OSError)
  /\ (forall data version, fs !! file_path = Some data ->
        exists info,
          create_version_info sha256_hexdigest fs file_path version = Return info
          /\ info.*1 = ["version"; "sha256"; "filename"; "download_url"; "signature_url";
                        "public_key_url"; "version_url"; "release_notes";
                        "minimum_runner_version"]
          /\ In ("version", version) info
          /\ In ("sha256", sha256_hexdigest data) info).
Proof.
  assert (Hh : forall data, fs !! file_path = Some data ->
            get_file_hash sha256_hexdigest fs file_path = Return (sha256_hexdigest data)).
  { intros data Hf. unfold get_file_hash, read_file. rewrite Hf. cbn.
    rewrite foldl_app_concat, read_chunks_concat by (done || lia). reflexivity. }
  split; [exact Hh|]. split.
  - intros Hf. unfold get_file_hash, read_file. by rewrite Hf.
  - intros data version Hf. unfold create_version_info. rewrite (Hh data Hf). cbn.
    eexists. split; [reflexivity|]. split; [reflexivity|]. split; [by left|].
    right. by left.
Qed.

(** X18: the [--verify] check of the signing tool and the check of the
    runner agree.  For the same public key file and a library that fails only
    by raising an [Exception], [verify_signature] of the tool and
    [verify_signature] of a runner started with that key file return the same
    boolean on every file and signature: what the publisher verified is what
    the runner will accept. *)
Theorem tool_and_runner_verify_agree (fs d : gmap string bytes)
    (file_path signature_path public_key_path : string) :
  (forall pem e, load_pem_public_key L pem = Raise e -> is_Exception e = true) ->
  ordinary_verify L ->
  d !! bundled_public_key_path i = fs !! public_key_path ->
  tool_verify_signature L fs file_path signature_path public_key_path
  = verify_signature L (new_updater L i d) fs file_path signature_path.
Proof.
  intros Hpem Hlib Hkey.
  unfold tool_verify_signature, verify_signature, new_updater, load_public_key,
    exists_file, read_file.
  rewrite Hkey. destruct (fs !! public_key_path) as [pem|] eqn:Hp.
  - rewrite bool_decide_eq_true_2 by eauto. cbn.
    destruct (load_pem_public_key L pem) as [pk|e] eqn:Hl; cbn.
    + destruct (fs !! file_path) as [data|]; [|reflexivity].
      destruct (fs !! signature_path) as [signature|]; [|reflexivity].
      cbn. destruct (pk_verify L pk signature data pss_padding SHA256) as [[]|x] eqn:Hv;
        cbn; [reflexivity|].
      rewrite (Hlib _ _ _ _ Hv). by destruct (is_InvalidSignature x).
    + by rewrite (Hpem _ _ Hl).
  - rewrite bool_decide_eq_false_2 by (by intros [? ?]). reflexivity.
Qed.

Variable keypair : privkey L -> pubkey L -> Prop.

Hypothesis library_signs_for_verify :
  forall sk pk data salt pad h signature,
    keypair sk pk ->
    sk_sign L sk data salt pad h = Return signature ->
    pk_verify L pk signature data pad h = Return tt.

(** X19: from the publisher to the runner.  When [sign_file] has signed a
    core file with the private key and the runner holds the matching public
    key, a [download_update] that receives that file and that signature
    unaltered accepts them and, on POSIX with no error of the operating
    system, returns True with the file installed at the live path. *)
Theorem published_update_is_installed (fs fs' : gmap string bytes) (sk : privkey L)
    (pk : pubkey L) (salt core signature : bytes) (file_path signature_path : string)
    (u : SecureUpdater L) (a : attempt) (d : gmap string bytes) :
  keypair sk pk ->
  fs !! file_path = Some core ->
  file_path ≠ signature_path ->
  sign_file L fs file_path sk salt signature_path = (true, fs') ->
  fs' !! signature_path = Some signature ->
  public_key u = Some pk ->
  core_download a = Return core ->
  sig_download a = Return signature ->
  os i = Posix ->
  io_fault a = None ->
  download_update L i u a d
  = (Return true, load_current_version L i (installed i (now a) core d) u,
     installed i (now a) core d)
  /\ installed i (now a) core d !! core_path i = Some core.
Proof.
  intros Hkp Hf Hne Hsign Hsig Hk Hc Hs Hos Hio.
  assert (Hv : pk_verify L pk signature core pss_padding SHA256 = Return tt).
  { unfold sign_file, read_file in Hsign. rewrite Hf in Hsign. cbn in Hsign.
    destruct (sk_sign L sk core salt pss_padding SHA256) as [sg|e] eqn:Hsg.
    - cbn in Hsign. apply (f_equal snd) in Hsign. cbn [snd] in Hsign. subst fs'.
      rewrite lookup_insert_eq in Hsig. assert (sg = signature) as -> by congruence.
      by apply (library_signs_for_verify sk pk core salt).
    - cbn in Hsign. destruct (is_Exception e); discriminate. }
  split; [|apply lookup_insert_eq].
  unfold download_update. rewrite Hc, Hs.
  assert (Hver : verify_signature L u (scratch core signature)
                   "lightscope_core.py" "lightscope_core.py.sig" = Return true).
  { assert (H1 : scratch core signature !! "lightscope_core.py" = Some core)
      by (vm_compute; reflexivity).
    assert (H2 : scratch core signature !! "lightscope_core.py.sig" = Some signature)
      by (vm_compute; reflexivity).
    unfold verify_signature, read_file. rewrite Hk, H1, H2. cbn.
    by rewrite Hv. }
  rewrite Hver, Hio. unfold run_with_fault.
  by rewrite (run_install_ops_posix i) by done.
Qed.

End ToolProperties.

Lemma toy_load_pem_ordinary :
  forall pem e, load_pem_public_key toy_libs pem = Raise e -> is_Exception e = true.
Proof. intros pem e. cbn. discriminate. Qed.

Lemma tool_and_runner_verify_agree_witness :
  tool_verify_signature toy_libs
    (<["key.pem" := toy_key]> (scratch new_core (toy_key ++ new_core)))
    "lightscope_core.py" "lightscope_core.py.sig" "key.pem"
  = verify_signature toy_libs
      (new_updater toy_libs debian
         (<[bundled_public_key_path debian := toy_key]> (core_only debian old_core)))
      (<["key.pem" := toy_key]> (scratch new_core (toy_key ++ new_core)))
      "lightscope_core.py" "lightscope_core.py.sig".
Proof.
  apply (tool_and_runner_verify_agree toy_libs debian _ _ _ _ _
           toy_load_pem_ordinary toy_libs_ordinary).
  vm_compute. reflexivity.
Defined.

Lemma published_update_is_installed_witness :
  installed small_posix 1700003700 new_core (core_only small_posix old_core)
    !! core_path small_posix = Some new_core.
Proof.
  assert (Hrt : forall (sk pk data salt : bytes) pad h signature,
            sk = pk ->
            sk_sign toy_libs sk data salt pad h = Return signature ->
            pk_verify toy_libs pk signature data pad h = Return tt).
  { intros sk pk data salt pad h signature -> [= <-]. cbn. unfold toy_verify.
    by rewrite bool_decide_eq_true_2. }
  apply (published_update_is_installed toy_libs small_posix (fun sk pk => sk = pk) Hrt
           (core_only small_posix new_core)
           (<["core.sig" := toy_key ++ new_core]> (core_only small_posix new_core))
           toy_key toy_key [] new_core (toy_key ++ new_core)
           (core_path small_posix) "core.sig" toy_updater good_attempt
           (core_only small_posix old_core)).
  - reflexivity.
  - vm_compute. reflexivity.
  - vm_compute. discriminate.
  - vm_compute. reflexivity.
  - vm_compute. reflexivity.
  - reflexivity.
  - reflexivity.
  - reflexivity.
  - reflexivity.
  - reflexivity.
Defined.

(** ** The end of the core thread and signals *)

Section CoreEndProperties.
Context (L : libs) (i : install).

Lemma happen_core_end_update (w : world) (a : async) :
  core_end_action a = true ->
  update_available_event (happen i w a) = update_available_event w.
Proof. destruct a; try discriminate; cbn; try done. by destruct (core_alive w). Qed.

Lemma happen_core_end_dead (w : world) (a : async) :
  core_end_action a = true -> core_alive w = false -> core_alive (happen i w a) = false.
Proof.
  destruct a; try discriminate; cbn; try done. intros _ Hw. by rewrite Hw.
Qed.

Lemma foldl_core_end_update (sec : list async) (w : world) :
  forallb core_end_action sec = true ->
  update_available_event (foldl (happen i) w sec) = update_available_event w.
Proof.
  revert w. induction sec as [|a sec IH]; intros w; cbn; [done|].
  intros [Ha Hsec]%andb_true_iff. rewrite (IH _ Hsec). by apply happen_core_end_update.
Qed.

Lemma foldl_core_end_dead (sec : list async) (w : world) :
  forallb core_end_action sec = true ->
  core_alive w = false -> core_alive (foldl (happen i) w sec) = false.
Proof.
  revert w. induction sec as [|a sec IH]; intros w; cbn; [done|].
  intros [Ha Hsec]%andb_true_iff Hw. apply (IH _ Hsec). by apply happen_core_end_dead.
Qed.

Lemma during_core_end (sec : list async) (w : world) :
  core_end_second sec = true ->
  core_alive (during i sec w) = false
  /\ update_available_event (during i sec w) = update_available_event w.
Proof.
  unfold core_end_second, during.
  intros [Hall Hex]%andb_true_iff. split; [|by apply foldl_core_end_update].
  revert w. induction sec as [|a sec IH]; intros w; cbn in *; [discriminate|].
  apply andb_true_iff in Hall as [Ha Hsec].
  destruct a; try discriminate; cbn in Hex.
  - by apply foldl_core_end_dead.
  - apply foldl_core_end_dead; [done|]. cbn. destruct (core_alive w) eqn:E; cbn; done.
  - by apply IH.
Qed.

Lemma during_update_ready (sec : list async) (w : world) :
  In AUpdateReady sec -> update_available_event (during i sec w) = true.
Proof.
  unfold during. revert w. induction sec as [|a sec IH]; intros w; cbn; [done|].
  intros [->|Hin]; [|by apply IH].
  apply (during_update_mono i sec). reflexivity.
Qed.

Lemma monitor_files_only (pre : schedule) (sch : schedule) (w : world) :
  core_alive w = true -> shutdown_event w = false ->
  update_available_event w = false ->
  forallb files_only pre = true ->
  exists w1,
    monitor i w (pre ++ sch) = monitor i w1 sch
    /\ core_alive w1 = true /\ shutdown_event w1 = false
    /\ update_available_event w1 = false
    /\ sys_modules w1 = sys_modules w.
Proof.
  revert w. induction pre as [|s pre IH]; intros w Ha Hs Hu Hpre.
  - exists w. done.
  - cbn in Hpre. apply andb_true_iff in Hpre as [Hf Hpre].
    cbn [app monitor]. unfold poll at 1. rewrite Ha, Hs, Hu. cbn [negb].
    destruct (during_files_only i s w Hf) as (Hs' & Hu' & Ha').
    destruct (IH (during i s w)) as (w1 & Hm & ? & ? & ? & Hmod); try congruence.
    exists w1. split; [exact Hm|]. repeat split; try done.
    rewrite Hmod. clear -Hf. unfold during, files_only in *.
    revert w. induction s as [|a s IHs]; intros w; cbn in *; [done|].
    apply andb_true_iff in Hf as [Ha Hs]. rewrite (IHs Hs).
    by destruct a.
Qed.

(** X20: the Debian runner does not restart a core that ends.  When the
    core thread of the first start ends, by returning or because
    [lightscope_run] raised, with no update pending, [load_lightscope_core]
    returns True, the main loop is left and [main] returns: a crash of the
    core is not counted as a failure and is followed by exit status 0, not by
    a retry. *)
Theorem core_end_exits_runner (fuel : nat) (w : world) (cf : Z) (source : bytes)
    (pre : schedule) (sec : list async) (rest : schedule) :
  shutdown_event w = false ->
  update_available_event w = false ->
  disk w !! core_path i = Some source ->
  core_module_loads L source = true ->
  sys_modules w !! "lightscope_core" = None ->
  forallb files_only pre = true ->
  core_end_second sec = true ->
  exists w',
    main_loop L i (S fuel) w cf (pre ++ sec :: rest)
    = ([OLoad LTrue], Done (Return tt), w')
    /\ core_alive w' = false
    /\ exit_code (Return tt) = 0%Z.
Proof.
  intros Hs Hu Hd Hl Hm Hpre Hsec.
  set (w0 := set_modules (<["lightscope_core" := source]> (sys_modules w)) w).
  destruct (monitor_files_only pre (sec :: rest) (set_alive true w0))
    as (w1 & Hmon & Ha1 & Hs1 & Hu1 & _); try done.
  destruct (during_core_end sec w1 Hsec) as (Ha2 & Hu2).
  assert (Hload : load_lightscope_core L i w (pre ++ sec :: rest)
                  = Some (LTrue, during i sec w1, rest)).
  { rewrite (load_first_import L i w _ source) by done.
    unfold supervise_core. fold w0. rewrite Hmon. cbn [monitor].
    unfold poll at 1. rewrite Ha1, Hs1, Hu1. cbn [negb].
    rewrite (monitor_poll i _ (during i sec w1)) by (unfold poll; by rewrite Ha2).
    cbn [join]. rewrite Ha2. cbn [negb]. by rewrite Hu2, Hu1. }
  exists (during i sec w1). split; [|done].
  cbn [main_loop]. by rewrite Hs, Hload.
Qed.

(** X21: a shutdown signal that arrives in the same second as the update
    signal is dropped.  [load_lightscope_core] returns "restart" because the
    update event is set, and the main loop then clears [shutdown_event] with
    it: the loop goes on to its next turn instead of ending. *)
Theorem signal_with_update_is_dropped (fuel : nat) (w : world) (cf : Z) (source : bytes)
    (pre : schedule) (sec : list async) (rest : schedule) :
  shutdown_event w = false ->
  update_available_event w = false ->
  disk w !! core_path i = Some source ->
  core_module_loads L source = true ->
  sys_modules w !! "lightscope_core" = None ->
  forallb files_only pre = true ->
  In ASignal sec -> In AUpdateReady sec ->
  (30 ≤ length rest)%nat ->
  exists w' sch',
    load_lightscope_core L i w (pre ++ sec :: rest) = Some (LRestart, w', sch')
    /\ shutdown_event w' = true
    /\ shutdown_event (set_shutdown false (set_update false w')) = false
    /\ main_loop L i (S fuel) w cf (pre ++ sec :: rest)
       = (OLoad LRestart
            :: (main_loop L i fuel (set_shutdown false (set_update false w')) 0 sch').1.1,
          (main_loop L i fuel (set_shutdown false (set_update false w')) 0 sch').1.2,
          (main_loop L i fuel (set_shutdown false (set_update false w')) 0 sch').2).
Proof.
  intros Hs Hu Hd Hl Hm Hpre Hsig Hupd Hlen.
  set (w0 := set_modules (<["lightscope_core" := source]> (sys_modules w)) w).
  destruct (monitor_files_only pre (sec :: rest) (set_alive true w0))
    as (w1 & Hmon & Ha1 & Hs1 & Hu1 & _); try done.
  pose proof (during_signal i sec w1 Hsig) as Hs2.
  pose proof (during_update_ready sec w1 Hupd) as Hu2.
  assert (Hpoll : exists w2, poll (during i sec w1) = Some w2
                             /\ shutdown_event w2 = true
                             /\ update_available_event w2 = true).
  { unfold poll. destruct (core_alive (during i sec w1)); cbn [negb].
    - rewrite Hs2. eauto.
    - eauto. }
  destruct Hpoll as (w2 & Hpoll & Hs3 & Hu3).
  destruct (join_enough i 30 w2 rest Hlen) as (w' & sch' & Hjoin & Hs' & Hu').
  assert (Hload : load_lightscope_core L i w (pre ++ sec :: rest)
                  = Some (LRestart, w', sch')).
  { rewrite (load_first_import L i w _ source) by done.
    unfold supervise_core. fold w0. rewrite Hmon. cbn [monitor].
    unfold poll at 1. rewrite Ha1, Hs1, Hu1. cbn [negb].
    rewrite (monitor_poll i _ w2 rest Hpoll). rewrite Hjoin. by rewrite Hu'. }
  exists w', sch'. split; [exact Hload|]. split; [by apply Hs'|]. split; [reflexivity|].
  cbn [main_loop]. rewrite Hs, Hload.
  by destruct (main_loop L i fuel (set_shutdown false (set_update false w')) 0 sch')
    as [[t e] wf].
Qed.

End CoreEndProperties.

Lemma core_end_exits_runner_witness :
  exists w',
    main_loop toy_libs debian 1 (World (core_only debian old_core) false false ∅ false) 0
      ([[]] ++ [ACoreRaises] :: [])
    = ([OLoad LTrue], Done (Return tt), w').
Proof.
  destruct (core_end_exits_runner toy_libs debian 0
              (World (core_only debian old_core) false false ∅ false) 0 old_core
              [[]] [ACoreRaises] [])
    as (w' & H & _).
  - reflexivity.
  - reflexivity.
  - vm_compute. reflexivity.
  - reflexivity.
  - reflexivity.
  - reflexivity.
  - reflexivity.
  - exists w'. exact H.
Defined.

Lemma signal_with_update_is_dropped_witness :
  exists w' sch',
    load_lightscope_core toy_libs debian
      (World (core_only debian old_core) false false ∅ false)
      ([[]] ++ [ASignal; AUpdateReady] :: quiet 30)
    = Some (LRestart, w', sch').
Proof.
  destruct (signal_with_update_is_dropped toy_libs debian 0
              (World (core_only debian old_core) false false ∅ false) 0 old_core
              [[]] [ASignal; AUpdateReady] (quiet 30))
    as (w' & sch' & H & _).
  - reflexivity.
  - reflexivity.
  - vm_compute. reflexivity.
  - reflexivity.
  - reflexivity.
  - reflexivity.
  - left. reflexivity.
  - right. left. reflexivity.
  - vm_compute. lia.
  - exists w', sch'. exact H.
Defined.
